(** * Session-scoped TLS client factory (cffi_src/factory.go)

    A shallow embedding of [factory.go]: the session registry
    ([clients], guarded by [clientsLock]), the resolution of a client
    profile from a named identifier or a custom fingerprint, and the
    request/response translation functions.

    Client handles are Go interface values that point to mutable
    objects, so the embedding keeps an explicit heap of client objects
    and represents a handle by its address; the registry maps session
    ids to handles.  Every function that touches the registry, the heap
    or the underlying HTTP library is written in a small state monad
    whose state also records, in program order, the calls made to the
    registry and to the library.  A call on a nil handle panics, which
    the monad records as a separate outcome.

    [getTlsClient] holds [clientsLock] for its whole body, so each call
    is one atomic step on the state; the embedding is sequential. *)

From stdpp Require Import gmap strings list fin_maps.
From Stdlib Require Import ZArith Ascii.

Local Open Scope string_scope.
Local Open Scope list_scope.

(** ** Errors *)

(** Go [error] values as the file builds them: [fmt.Errorf] with a
    plain message, [fmt.Errorf] with a [%w] cause, and errors that come
    out of the libraries. *)
Inductive error : Type :=
| Errorf (msg : string)
| Wrapf (msg : string) (cause : error)
| External (msg : string).

(** Modelled from the spec: [NewTLSClientError] is declared in another
    file of the package; the spec describes it as a single tagged error
    wrapping an underlying cause, with no structured kind. *)
Record TLSClientError : Type := NewTLSClientError { cause : error }.

(** The spec's taxonomy is not present in the code.  A validation error
    is an error the factory raises from its own input checks: a
    [fmt.Errorf] without a wrapped cause. *)
Definition isValidationError (e : TLSClientError) : bool :=
  match cause e with
  | Errorf _ => true
  | _ => false
  end.

(** ** Data model *)

Module http2.
(** [type SettingID uint16] *)
Abbreviation SettingID := Z.

Record PriorityParam : Type := {
  StreamDep : Z;
  Exclusive : bool;
  Weight : Z
}.

Record Priority : Type := {
  StreamID : Z;
  Param : PriorityParam
}.
End http2.

(** Modelled from the spec: the package's input types are declared in
    a file other than [factory.go]; the spec's data model lists their
    fields, which are the ones [factory.go] reads.  A pointer field
    that may be nil is an [option]; the integer fields carry no
    arithmetic in this file and are plain integers. *)
Record PriorityParam : Type := {
  StreamDep : Z;
  Exclusive : bool;
  Weight : Z
}.

(** Modelled from the spec: a priority frame of the input, {stream id,
    stream dependency, exclusivity flag, weight}. *)
Record PriorityFrames : Type := {
  StreamID : Z;
  PriorityParam_ : PriorityParam
}.

(** Modelled from the spec: the custom fingerprint definition. *)
Record CustomTlsClient : Type := {
  Ja3String : string;
  H2Settings : gmap Z Z;
  H2SettingsOrder : list Z;
  PseudoHeaderOrder : list string;
  ConnectionFlow : Z;
  PriorityFrames_ : list PriorityFrames
}.

(** Modelled from the spec: the request input. *)
Record RequestInput : Type := {
  SessionId : option string;
  TLSClientIdentifier : string;
  CustomTlsClient_ : option CustomTlsClient;
  ProxyUrl : option string;
  FollowRedirects : bool;
  TimeoutSeconds : Z;
  InsecureSkipVerify : bool;
  RequestMethod : string;
  RequestUrl : string;
  RequestBody : option string;
  Headers : gmap string string;
  HeaderOrder : list string
}.

(** The package's [Response]; [Response{}] is its zero value. *)
Module resp.
(** Modelled from the spec: session id, numeric status, body,
    headers, and cookies as a mapping from name to string. *)
Record Response : Type := {
  SessionId : string;
  Status : Z;
  Body : string;
  Headers : gmap string (list string);
  Cookies : gmap string string
}.

Definition zero : Response :=
  {| SessionId := ""; Status := 0%Z; Body := ""; Headers := ∅; Cookies := ∅ |}.
End resp.

(** ** The libraries the file calls *)

Module tls.
(** The spec factory that [GetSpecFactorFromJa3String] returns is a
    closure over the parsed JA3 string; it is identified by that
    string. *)
Inductive SpecFactory : Type := specFactoryOf (ja3 : string).

Record ClientHelloID : Type := {
  Client : string;
  Version : string;
  Seed : option (list Z);
  Factory : option SpecFactory
}.

(** [tls.ClientHelloID{}] *)
Definition zero : ClientHelloID :=
  {| Client := ""; Version := ""; Seed := None; Factory := None |}.
End tls.

Module tls_client.
(** Modelled from the spec: the resolved fingerprint descriptor the
    library consumes: handshake identity, HTTP/2 settings map, settings
    order, pseudo-header order, flow window, priority frames;
    [NewClientProfile] stores its six arguments. *)
Record ClientProfile : Type := NewClientProfile {
  clientHelloId : tls.ClientHelloID;
  settings : gmap Z Z;
  settingsOrder : list http2.SettingID;
  pseudoHeaderOrder : list string;
  connectionFlow : Z;
  priorities : list http2.Priority
}.

(** [var clientProfile tls_client.ClientProfile] *)
Definition zeroProfile : ClientProfile :=
  NewClientProfile tls.zero ∅ [] [] 0%Z [].

(** [time.Second * time.Duration(n)]: a number of seconds as a
    duration in nanoseconds, a signed 64-bit integer that wraps. *)
Definition wrap64 (z : Z) : Z := ((z + 2 ^ 63) mod 2 ^ 64 - 2 ^ 63)%Z.

Definition seconds (n : Z) : Z := wrap64 (1000000000 * n).
Arguments seconds : simpl never.

(** Modelled from the spec: a client handle encapsulates the resolved
    profile, the current proxy URL, the current follow-redirects flag,
    and what the option set configured (timeout, as a duration, and
    the TLS-verification-skip flag). *)
Record httpClient : Type := {
  profile : ClientProfile;
  timeout : Z;
  followRedirects : bool;
  insecureSkipVerify : bool;
  proxyUrl : string
}.

(** Modelled from the spec: the option set of the constructor (profile,
    timeout, proxy, redirect policy, TLS-verify-skip). *)
Inductive HttpClientOption : Type :=
| WithTimeout (timeoutSeconds : Z)
| WithClientProfile (p : ClientProfile)
| WithNotFollowRedirects
| WithInsecureSkipVerify
| WithProxyUrl (url : string).

(** Modelled from the spec: setting the proxy of a client changes its
    proxy URL and nothing else. *)
Definition setProxyUrl (url : string) (c : httpClient) : httpClient :=
  {| profile := profile c; timeout := timeout c;
     followRedirects := followRedirects c;
     insecureSkipVerify := insecureSkipVerify c; proxyUrl := url |}.

(** Modelled from the spec: setting the follow-redirects flag of a
    client changes that flag and nothing else. *)
Definition setFollowRedirects (b : bool) (c : httpClient) : httpClient :=
  {| profile := profile c; timeout := timeout c;
     followRedirects := b;
     insecureSkipVerify := insecureSkipVerify c; proxyUrl := proxyUrl c |}.

(** Modelled from the spec: what each option of the constructor
    configures.  The timeout option takes a number of seconds and the
    client keeps the duration, which wraps for a number of seconds
    beyond the range of a 64-bit count of nanoseconds. *)
Definition applyOption (c : httpClient) (o : HttpClientOption) : httpClient :=
  match o with
  | WithTimeout n =>
      {| profile := profile c; timeout := seconds n;
         followRedirects := followRedirects c;
         insecureSkipVerify := insecureSkipVerify c; proxyUrl := proxyUrl c |}
  | WithClientProfile p =>
      {| profile := p; timeout := timeout c;
         followRedirects := followRedirects c;
         insecureSkipVerify := insecureSkipVerify c; proxyUrl := proxyUrl c |}
  | WithNotFollowRedirects => setFollowRedirects false c
  | WithInsecureSkipVerify =>
      {| profile := profile c; timeout := timeout c;
         followRedirects := followRedirects c;
         insecureSkipVerify := true; proxyUrl := proxyUrl c |}
  | WithProxyUrl url => setProxyUrl url c
  end.
End tls_client.

(** A handle of interface type [tls_client.HttpClient]: nil, or a
    pointer to a client object in the heap. *)
Inductive HttpClient : Type :=
| nilClient
| clientAt (addr : nat).

#[global] Instance HttpClient_eq_dec : EqDecision HttpClient.
Proof. solve_decision. Defined.

Module http.
Record Cookie : Type := {
  Name : string;
  Value : string;
  Attributes : string
}.

Record Request : Type := {
  Method : string;
  URL : string;
  ReqBody : option string;
  ReqHeader : gmap string (list string)
}.

(** A response whose body, when drained by [ioutil.ReadAll], gives
    the bytes read and possibly an error. *)
Record Response : Type := {
  StatusCode : Z;
  Header : gmap string (list string);
  Body : string * option error
}.
End http.

(** What the code takes from the libraries without fixing it: the
    fingerprint catalog, the default profile and timeout, which JA3
    strings parse, which configurations the client constructor accepts,
    which proxy URLs a live client accepts, which method/URL pairs make
    a request object, the header-order key and the serialisation of a
    cookie. *)
Record Library : Type := {
  MappedTLSClients : gmap string tls_client.ClientProfile;
  DefaultClientProfile : tls_client.ClientProfile;
  DefaultTimeoutSeconds : Z;
  ja3_check : string → option error;
  construct_check : tls_client.httpClient → option error;
  proxy_check : string → option error;
  request_check : string → string → option error;
  HeaderOrderKey : string;
  Cookie_String : http.Cookie → string
}.

(** ** State, outcomes and the monad *)

Inductive Event : Type :=
| EvRegistryLookup (sessionId : string)
| EvRegistryStore (sessionId : string) (c : HttpClient)
| EvCustomProfile (ja3 : string)
| EvNamedProfile (identifier : string)
| EvNewHttpClient (options : list tls_client.HttpClientOption)
| EvSetProxy (c : HttpClient) (url : string)
| EvSetFollowRedirect (c : HttpClient) (b : bool)
| EvNewRequest (method url : string) (body : option string)
| EvReadAll
| EvBodyClose.

Record World : Type := {
  clients : gmap string HttpClient;
  heap : list tls_client.httpClient;
  trace : list Event
}.

Inductive Outcome (A : Type) : Type :=
| Returns (a : A) (w : World)
| Panics (w : World).
Arguments Returns {A} a w.
Arguments Panics {A} w.

Definition M (A : Type) : Type := World → Outcome A.

Definition ret {A} (a : A) : M A := λ w, Returns a w.

Definition bind {A B} (m : M A) (k : A → M B) : M B :=
  λ w, match m w with
       | Returns a w' => k a w'
       | Panics w' => Panics w'
       end.

Definition panic {A} : M A := λ w, Panics w.

Notation "'let!' x ':=' m 'in' k" := (bind m (λ x, k))
  (at level 10, x pattern, m at level 100, k at level 200).
Notation "m ';;' k" := (bind m (λ _, k))
  (at level 100, k at level 200, right associativity).

(** State updates: log a call, write the registry, write or extend
    the heap. *)
Definition logEvent (e : Event) (w : World) : World :=
  {| clients := clients w; heap := heap w; trace := trace w ++ [e] |}.

Definition writeRegistry (sessionId : string) (c : HttpClient) (w : World) : World :=
  {| clients := <[sessionId := c]> (clients w); heap := heap w; trace := trace w |}.

Definition writeHeap (l : nat) (st : tls_client.httpClient) (w : World) : World :=
  {| clients := clients w; heap := <[l := st]> (heap w); trace := trace w |}.

Definition allocate (st : tls_client.httpClient) (w : World) : World :=
  {| clients := clients w; heap := heap w ++ [st]; trace := trace w |}.

Definition emit (e : Event) : M unit := λ w, Returns tt (logEvent e w).

(** [c, ok := clients[sessionId]] *)
Definition lookupClient (sessionId : string) : M (option HttpClient) :=
  emit (EvRegistryLookup sessionId);;
  λ w, Returns (clients w !! sessionId) w.

(** [clients[sessionId] = c] *)
Definition storeClient (sessionId : string) (c : HttpClient) : M unit :=
  emit (EvRegistryStore sessionId c);;
  λ w, Returns tt (writeRegistry sessionId c w).

(** The object behind a handle; a method call on nil panics. *)
Definition deref (c : HttpClient) : M tls_client.httpClient :=
  λ w, match c with
       | nilClient => Panics w
       | clientAt l =>
           match heap w !! l with
           | Some st => Returns st w
           | None => Panics w
           end
       end.

Definition update (c : HttpClient) (st : tls_client.httpClient) : M unit :=
  λ w, match c with
       | nilClient => Panics w
       | clientAt l => Returns tt (writeHeap l st w)
       end.

(** ** The program *)

Section Factory.
Context (L : Library).

(** *** Library operations on clients *)

(** Modelled from the spec: the configuration the client constructor
    starts from before it applies the options; a client follows
    redirects and verifies certificates unless told otherwise. *)
Definition defaultConfig : tls_client.httpClient :=
  {| tls_client.profile := DefaultClientProfile L;
     tls_client.timeout := tls_client.seconds (DefaultTimeoutSeconds L);
     tls_client.followRedirects := true;
     tls_client.insecureSkipVerify := false;
     tls_client.proxyUrl := "" |}.

(** Modelled from the spec: the library constructs a client from a
    profile, timeout, and option set and returns a handle or a
    construction error; a new client is a new object. *)
Definition NewHttpClient (options : list tls_client.HttpClientOption)
  : M (HttpClient * option error) :=
  emit (EvNewHttpClient options);;
  let config := fold_left tls_client.applyOption options defaultConfig in
  match construct_check L config with
  | Some e => ret (nilClient, Some e)
  | None =>
      λ w, Returns (clientAt (length (heap w)), None) (allocate config w)
  end.

(** Modelled from the spec: get proxy on a handle. *)
Definition GetProxy (c : HttpClient) : M string :=
  let! st := deref c in ret (tls_client.proxyUrl st).

(** Modelled from the spec: set proxy on a handle fails on malformed
    input, and then the client is left unmodified for that field. *)
Definition SetProxy (c : HttpClient) (url : string) : M (option error) :=
  let! st := deref c in
  emit (EvSetProxy c url);;
  match proxy_check L url with
  | Some e => ret (Some e)
  | None => update c (tls_client.setProxyUrl url st);; ret None
  end.

(** Modelled from the spec: get follow-redirects on a handle. *)
Definition GetFollowRedirect (c : HttpClient) : M bool :=
  let! st := deref c in ret (tls_client.followRedirects st).

(** Modelled from the spec: set follow-redirects on a handle never
    fails. *)
Definition SetFollowRedirect (c : HttpClient) (b : bool) : M unit :=
  let! st := deref c in
  emit (EvSetFollowRedirect c b);;
  update c (tls_client.setFollowRedirects b st).

(** Modelled from the spec: [tls_client.GetSpecFactorFromJa3String]
    resolves a JA3 string into a handshake specification factory and
    fails on a malformed JA3 string. *)
Definition GetSpecFactorFromJa3String (ja3 : string)
  : option tls.SpecFactory * option error :=
  match ja3_check L ja3 with
  | Some e => (None, Some e)
  | None => (Some (tls.specFactoryOf ja3), None)
  end.

(** *** factory.go *)

(** Lines 176-216. The loops append to a slice that starts nil (a
    nil slice and an empty one are both the empty list here); the Go
    map is filled key by key. *)
Definition getCustomTlsClientProfile (customClientDefinition : CustomTlsClient)
  : tls.ClientHelloID * gmap Z Z * list http2.SettingID * list string * Z
    * list http2.Priority * option error :=
  let '(specFactory, err) :=
    GetSpecFactorFromJa3String (Ja3String customClientDefinition) in
  match err with
  | Some e => (tls.zero, ∅, [], [], 0%Z, [], Some e)
  | None =>
      let h2Settings :=
        map_fold (λ key value (acc : gmap Z Z), <[key := value]> acc) ∅
                 (H2Settings customClientDefinition) in
      let h2SettingsOrder :=
        fold_left (λ acc order, acc ++ [order]) 
                  (H2SettingsOrder customClientDefinition) [] in
      let pseudoHeaderOrder := PseudoHeaderOrder customClientDefinition in
      let connectionFlow := ConnectionFlow customClientDefinition in
      let priorityFrames :=
        fold_left
          (λ acc priority,
             acc ++ [ {| http2.StreamID := StreamID priority;
                         http2.Param :=
                           {| http2.StreamDep := StreamDep (PriorityParam_ priority);
                              http2.Exclusive := Exclusive (PriorityParam_ priority);
                              http2.Weight := Weight (PriorityParam_ priority) |} |} ])
          (PriorityFrames_ customClientDefinition) [] in
      let clientHelloId :=
        {| tls.Client := "Custom"; tls.Version := "1"; tls.Seed := None;
           tls.Factory := specFactory |} in
      (clientHelloId, h2Settings, h2SettingsOrder, pseudoHeaderOrder,
       connectionFlow, priorityFrames, None)
  end.

(** Lines 218-226. *)
Definition getTlsClientProfile (tlsClientIdentifier : string)
  : tls_client.ClientProfile :=
  match MappedTLSClients L !! tlsClientIdentifier with
  | None => DefaultClientProfile L
  | Some tlsClientProfile => tlsClientProfile
  end.

(** Lines 228-246. *)
Definition handleModification (client : HttpClient) (proxyUrl : option string)
    (followRedirects : bool) : M (HttpClient * bool * option error) :=
  let proxyStep : M (bool * option error) :=
    match proxyUrl with
    | None => ret (false, None)
    | Some url =>
        let! current := GetProxy client in
        if decide (current = url) then ret (false, None)
        else
          let! err := SetProxy client url in
          match err with
          | Some e =>
              ret (false, Some (Wrapf "failed to change proxy url of client" e))
          | None => ret (true, None)
          end
    end in
  let! (changed, err) := proxyStep in
  match err with
  | Some e => ret (nilClient, false, Some e)
  | None =>
      let! current := GetFollowRedirect client in
      if decide (current = followRedirects) then ret (client, changed, None)
      else
        SetFollowRedirect client followRedirects;;
        ret (client, true, None)
  end.

(** Lines 106-174. *)
Definition getTlsClient (requestInput : RequestInput) (sessionId : string)
  : M (HttpClient * option error) :=
  let tlsClientIdentifier := TLSClientIdentifier requestInput in
  let proxyUrl := ProxyUrl requestInput in
  let! entry := lookupClient sessionId in
  match entry with
  | Some client =>
      let! (modifiedClient, changed, err) :=
        handleModification client proxyUrl (FollowRedirects requestInput) in
      match err with
      | Some e => ret (nilClient, Some (Wrapf "failed to modify existing client" e))
      | None =>
          (if changed then storeClient sessionId modifiedClient else ret tt);;
          ret (modifiedClient, None)
      end
  | None =>
      let! customProfile :=
        match CustomTlsClient_ requestInput with
        | Some custom =>
            emit (EvCustomProfile (Ja3String custom));;
            let '(clientHelloId, h2Settings, h2SettingsOrder, pseudoHeaderOrder,
                  connectionFlow, priorityFrames, err) :=
              getCustomTlsClientProfile custom in
            match err with
            | Some e => ret (inr e)
            | None =>
                ret (inl (tls_client.NewClientProfile clientHelloId h2Settings
                            h2SettingsOrder pseudoHeaderOrder connectionFlow
                            priorityFrames))
            end
        | None => ret (inl tls_client.zeroProfile)
        end in
      match customProfile with
      | inr e =>
          ret (nilClient,
               Some (Wrapf "can not build http client out of custom tls client information" e))
      | inl clientProfile =>
          let! clientProfile :=
            if decide (tlsClientIdentifier = "") then ret clientProfile
            else
              emit (EvNamedProfile tlsClientIdentifier);;
              ret (getTlsClientProfile tlsClientIdentifier) in
          let timeoutSeconds :=
            if decide (TimeoutSeconds requestInput = 0%Z)
            then DefaultTimeoutSeconds L
            else TimeoutSeconds requestInput in
          let options :=
            [tls_client.WithTimeout timeoutSeconds;
             tls_client.WithClientProfile clientProfile] in
          let options :=
            if FollowRedirects requestInput then options
            else options ++ [tls_client.WithNotFollowRedirects] in
          let options :=
            if InsecureSkipVerify requestInput
            then options ++ [tls_client.WithInsecureSkipVerify]
            else options in
          let options :=
            match proxyUrl with
            | Some proxy =>
                if decide (proxy = "") then options
                else options ++ [tls_client.WithProxyUrl proxy]
            | None => options
            end in
          let! (tlsClient, err) := NewHttpClient options in
          storeClient sessionId tlsClient;;
          ret (tlsClient, err)
      end
  end.

(** Lines 19-45. [uuid] is the string [uuid.New().String()] evaluates
    to in this call. *)
Definition GetTlsClientFromInput (requestInput : RequestInput) (uuid : string)
  : M (HttpClient * string * option TLSClientError) :=
  let sessionId := SessionId requestInput in
  let newSessionId := uuid in
  let newSessionId :=
    match sessionId with
    | Some s => if decide (s = "") then newSessionId else s
    | None => newSessionId
    end in
  if decide (TLSClientIdentifier requestInput ≠ ""
             ∧ CustomTlsClient_ requestInput ≠ None)
  then
    ret (nilClient, newSessionId,
         Some (NewTLSClientError (Errorf "can not built client out of client identifier and custom tls client information. Please provide only one of them")))
  else if decide (TLSClientIdentifier requestInput = ""
                  ∧ CustomTlsClient_ requestInput = None)
  then
    ret (nilClient, newSessionId,
         Some (NewTLSClientError (Errorf "can not built client without client identifier and without custom tls client information. Please provide at least one of them")))
  else
    let! (tlsClient, err) := getTlsClient requestInput newSessionId in
    match err with
    | Some e =>
        ret (nilClient, newSessionId,
             Some (NewTLSClientError (Wrapf "failed to build client out of request input" e)))
    | None => ret (tlsClient, newSessionId, None)
    end.

(** Modelled from the spec: [http.NewRequest] builds the outbound
    request with the given method, URL and body, or fails. *)
Definition NewRequest (method url : string) (body : option string)
  : M (option http.Request * option error) :=
  emit (EvNewRequest method url body);;
  match request_check L method url with
  | Some e => ret (None, Some e)
  | None =>
      ret (Some {| http.Method := method; http.URL := url;
                   http.ReqBody := body; http.ReqHeader := ∅ |}, None)
  end.

(** Lines 69-83: what [BuildRequest] does with the outcome of
    [http.NewRequest]. *)
Definition finishRequest (input : RequestInput)
    (created : option http.Request * option error)
  : M (option http.Request * option TLSClientError) :=
  match created with
  | (_, Some e) =>
      ret (None, Some (NewTLSClientError (Wrapf "failed to create request object" e)))
  | (None, None) => panic
  | (Some tlsReq, None) =>
      let headers : gmap string (list string) :=
        map_fold (λ key value (acc : gmap string (list string)),
                    <[key := [value]]> acc) ∅ (Headers input) in
      let headers := <[HeaderOrderKey L := HeaderOrder input]> headers in
      ret (Some {| http.Method := http.Method tlsReq;
                   http.URL := http.URL tlsReq;
                   http.ReqBody := http.ReqBody tlsReq;
                   http.ReqHeader := headers |}, None)
  end.

(** Lines 47-84. *)
Definition BuildRequest (input : RequestInput)
  : M (option http.Request * option TLSClientError) :=
  if decide (RequestMethod input = "" ∨ RequestUrl input = "") then
    ret (None, Some (NewTLSClientError (Errorf "no request url or request method provided")))
  else
    match RequestBody input with
    | Some body =>
        if decide (body = "") then
          let! created := NewRequest (RequestMethod input) (RequestUrl input) None in
          finishRequest input created
        else
          let ok1 := Headers input !! "content-type" in
          let ok2 := Headers input !! "Content-Type" in
          match ok1, ok2 with
          | None, None =>
              ret (None, Some (NewTLSClientError (Errorf "if you are using a request post body please specify a Content-Type Header")))
          | _, _ =>
              let! created :=
                NewRequest (RequestMethod input) (RequestUrl input) (Some body) in
              finishRequest input created
          end
    | None =>
        let! created := NewRequest (RequestMethod input) (RequestUrl input) None in
        finishRequest input created
    end.

(** Lines 248-256. The cookies are the non-nil pointers the client's
    cookie jar hands out. *)
Definition cookiesToMap (cookies : list http.Cookie) : gmap string string :=
  fold_left (λ (ret : gmap string string) c, <[http.Name c := Cookie_String L c]> ret)
            cookies ∅.

(** Lines 86-104. The deferred [resp.Body.Close()] runs on both
    return paths. *)
Definition BuildResponse (sessionId : string) (response : http.Response)
    (cookies : list http.Cookie) : M (resp.Response * option TLSClientError) :=
  emit EvReadAll;;
  let '(respBodyBytes, err) := http.Body response in
  let result :=
    match err with
    | Some e => (resp.zero, Some (NewTLSClientError e))
    | None =>
        ({| resp.SessionId := sessionId;
            resp.Status := http.StatusCode response;
            resp.Body := respBodyBytes;
            resp.Headers := http.Header response;
            resp.Cookies := cookiesToMap cookies |}, None)
    end in
  emit EvBodyClose;;
  ret result.

End Factory.

(** ** A concrete library

    An instance of [Library] to run the program on: a one-entry
    catalog, a JA3 parser that rejects the empty string, a transport
    that rejects proxy URLs with an empty scheme (as [net/url] does for
    a URL that starts with a colon) both at construction and in
    [SetProxy], and a cookie serialisation [name=value; attributes]. *)
Module Demo.
Definition chrome : tls_client.ClientProfile :=
  tls_client.NewClientProfile
    {| tls.Client := "Chrome"; tls.Version := "105"; tls.Seed := None;
       tls.Factory := None |}
    ∅ [1; 3; 4; 6]%Z [":method"; ":authority"; ":scheme"; ":path"] 15663105%Z [].

Definition badProxy (url : string) : option error :=
  match url with
  | String ":"%char _ => Some (External "missing protocol scheme")
  | _ => None
  end.

Definition lib : Library :=
  {| MappedTLSClients := {[ "chrome_105" := chrome ]};
     DefaultClientProfile := chrome;
     DefaultTimeoutSeconds := 30%Z;
     ja3_check := λ s, if decide (s = "") then Some (External "invalid ja3") else None;
     construct_check := λ c, badProxy (tls_client.proxyUrl c);
     proxy_check := badProxy;
     request_check := λ m u,
       if decide (m = "GE T") then Some (External "invalid method") else None;
     HeaderOrderKey := "Header-Order:";
     Cookie_String := λ c,
       String.append (http.Name c)
         (String.append "=" (String.append (http.Value c) (http.Attributes c))) |}.

Definition emptyWorld : World := {| clients := ∅; heap := []; trace := [] |}.

Definition named (sessionId : option string) (proxy : option string)
    (follow : bool) : RequestInput :=
  {| SessionId := sessionId; TLSClientIdentifier := "chrome_105";
     CustomTlsClient_ := None; ProxyUrl := proxy; FollowRedirects := follow;
     TimeoutSeconds := 0%Z; InsecureSkipVerify := false;
     RequestMethod := "GET"; RequestUrl := "https://example.com";
     RequestBody := None; Headers := ∅; HeaderOrder := [] |}.
(** A world with one session, [s], whose client follows redirects
    and has no proxy. *)
Definition client0 : tls_client.httpClient :=
  {| tls_client.profile := chrome;
     tls_client.timeout := tls_client.seconds 30;
     tls_client.followRedirects := true;
     tls_client.insecureSkipVerify := false;
     tls_client.proxyUrl := "" |}.

Definition oneClient : World :=
  {| clients := {[ "s" := clientAt 0 ]}; heap := [client0]; trace := [] |}.

Definition custom : CustomTlsClient :=
  {| Ja3String := "771,4865-4866,0-23,29-23,0";
     H2Settings := {[ 1%Z := 65536%Z ]};
     H2SettingsOrder := [2; 4; 1]%Z;
     PseudoHeaderOrder := [":method"; ":path"];
     ConnectionFlow := 15663105%Z;
     PriorityFrames_ :=
       [ {| StreamID := 3%Z;
            PriorityParam_ := {| StreamDep := 0%Z; Exclusive := false;
                                 Weight := 200%Z |} |} ] |}.

(** An input with neither an identifier nor a custom definition. *)
Definition bare (sessionId : option string) : RequestInput :=
  {| SessionId := sessionId; TLSClientIdentifier := "";
     CustomTlsClient_ := None; ProxyUrl := None; FollowRedirects := true;
     TimeoutSeconds := 0%Z; InsecureSkipVerify := false;
     RequestMethod := "GET"; RequestUrl := "https://example.com";
     RequestBody := None; Headers := ∅; HeaderOrder := [] |}.

(** An input with a custom definition whose JA3 string does not
    parse. *)
Definition unparsable : CustomTlsClient :=
  {| Ja3String := ""; H2Settings := ∅; H2SettingsOrder := [];
     PseudoHeaderOrder := []; ConnectionFlow := 0%Z; PriorityFrames_ := [] |}.

Definition badCustom (sessionId : option string) : RequestInput :=
  {| SessionId := sessionId; TLSClientIdentifier := "";
     CustomTlsClient_ := Some unparsable;
     ProxyUrl := None; FollowRedirects := true;
     TimeoutSeconds := 0%Z; InsecureSkipVerify := false;
     RequestMethod := "GET"; RequestUrl := "https://example.com";
     RequestBody := None; Headers := ∅; HeaderOrder := [] |}.

(** A world whose registry holds a nil handle under [s]. *)
Definition nilEntry : World :=
  {| clients := {[ "s" := nilClient ]}; heap := []; trace := [] |}.

(** A request whose method [http.NewRequest] rejects. *)
Definition badMethod : RequestInput :=
  {| SessionId := None; TLSClientIdentifier := "chrome_105";
     CustomTlsClient_ := None; ProxyUrl := None; FollowRedirects := true;
     TimeoutSeconds := 0%Z; InsecureSkipVerify := false;
     RequestMethod := "GE T"; RequestUrl := "https://example.com";
     RequestBody := Some ""; Headers := ∅; HeaderOrder := [] |}.

(** An input with a custom definition and every option set. *)
Definition customised : RequestInput :=
  {| SessionId := Some "c"; TLSClientIdentifier := "";
     CustomTlsClient_ := Some custom; ProxyUrl := Some "http://proxy:8080";
     FollowRedirects := false; TimeoutSeconds := 5%Z;
     InsecureSkipVerify := true;
     RequestMethod := "GET"; RequestUrl := "https://example.com";
     RequestBody := None; Headers := ∅; HeaderOrder := [] |}.

(** A POST request with a body, a content type and a header order. *)
Definition post : RequestInput :=
  {| SessionId := None; TLSClientIdentifier := "chrome_105";
     CustomTlsClient_ := None; ProxyUrl := None; FollowRedirects := true;
     TimeoutSeconds := 0%Z; InsecureSkipVerify := false;
     RequestMethod := "POST"; RequestUrl := "https://example.com";
     RequestBody := Some "{}";
     Headers := {[ "Content-Type" := "application/json" ]};
     HeaderOrder := ["Content-Type"] |}.

Definition cookie (name value : string) : http.Cookie :=
  {| http.Name := name; http.Value := value; http.Attributes := "; Path=/" |}.

Definition response (body : string * option error) : http.Response :=
  {| http.StatusCode := 200%Z; http.Header := ∅; http.Body := body |}.
End Demo.


(** ** Vocabulary of the properties *)

(** The world an outcome ends in. *)
Definition finalWorld {A} (o : Outcome A) : World :=
  match o with
  | Returns _ w => w
  | Panics w => w
  end.

(** Exactly one of identifier and custom definition is given: the
    input passes the two checks at the head of
    [GetTlsClientFromInput]. *)
Definition passesValidation (ri : RequestInput) : Prop :=
  ¬ (TLSClientIdentifier ri ≠ "" ∧ CustomTlsClient_ ri ≠ None)
  ∧ ¬ (TLSClientIdentifier ri = "" ∧ CustomTlsClient_ ri = None).

(** The session [sessionId] has a live client: a registry entry that
    points to an object in the heap. *)
Definition liveSession (w : World) (sessionId : string) (l : nat)
    (st : tls_client.httpClient) : Prop :=
  clients w !! sessionId = Some (clientAt l) ∧ heap w !! l = Some st.

(** Calls that resolve a profile or construct a client. *)
Definition isResolution (e : Event) : bool :=
  match e with
  | EvCustomProfile _ | EvNamedProfile _ | EvNewHttpClient _ => true
  | _ => false
  end.

(** Calls that read or write the registry. *)
Definition isRegistryAccess (e : Event) : bool :=
  match e with
  | EvRegistryLookup _ | EvRegistryStore _ _ => true
  | _ => false
  end.

(** A priority frame of the input and one of the profile carry the
    same four values. *)
Definition samePriority (p : PriorityFrames) (q : http2.Priority) : Prop :=
  StreamID p = http2.StreamID q
  ∧ StreamDep (PriorityParam_ p) = http2.StreamDep (http2.Param q)
  ∧ Exclusive (PriorityParam_ p) = http2.Exclusive (http2.Param q)
  ∧ Weight (PriorityParam_ p) = http2.Weight (http2.Param q).

(** The proxy part of [handleModification] (lines 231-238) on a live
    client in state [st]: the URL it tries to set and the error the
    client answers with, when the change is rejected. *)
Definition proxyChangeRejected (L : Library) (st : tls_client.httpClient)
    (proxyUrl : option string) : option (string * error) :=
  match proxyUrl with
  | Some url =>
      if decide (tls_client.proxyUrl st = url) then None
      else match proxy_check L url with
           | Some e => Some (url, e)
           | None => None
           end
  | None => None
  end.

(** The state of a live client after a modification that is not
    rejected, the calls it makes on the client, and whether it reports
    a change. *)
Definition proxyAfter (st : tls_client.httpClient) (proxyUrl : option string)
  : string :=
  match proxyUrl with
  | Some url => url
  | None => tls_client.proxyUrl st
  end.

Definition modified (st : tls_client.httpClient) (proxyUrl : option string)
    (followRedirects : bool) : tls_client.httpClient :=
  tls_client.setFollowRedirects followRedirects
    (tls_client.setProxyUrl (proxyAfter st proxyUrl) st).

Definition modificationEvents (l : nat) (st : tls_client.httpClient)
    (proxyUrl : option string) (followRedirects : bool) : list Event :=
  (if decide (tls_client.proxyUrl st = proxyAfter st proxyUrl) then []
   else [EvSetProxy (clientAt l) (proxyAfter st proxyUrl)])
  ++ (if decide (tls_client.followRedirects st = followRedirects) then []
      else [EvSetFollowRedirect (clientAt l) followRedirects]).

Definition modificationChanged (st : tls_client.httpClient)
    (proxyUrl : option string) (followRedirects : bool) : bool :=
  bool_decide (tls_client.proxyUrl st ≠ proxyAfter st proxyUrl)
  || bool_decide (tls_client.followRedirects st ≠ followRedirects).

(** Lines 20-25: the session id a call works with. *)
Definition resolvedSessionId (ri : RequestInput) (uuid : string) : string :=
  match SessionId ri with
  | Some s => if decide (s = "") then uuid else s
  | None => uuid
  end.

(** The error of the JA3 parser on the custom definition of an input,
    if it has one and the parser rejects it (lines 130-135). *)
Definition ja3Rejected (L : Library) (ri : RequestInput) : option error :=
  match CustomTlsClient_ ri with
  | Some custom => ja3_check L (Ja3String custom)
  | None => None
  end.

(** Calls of the client constructor, and their number so far. *)
Definition isConstruction (e : Event) : bool :=
  match e with
  | EvNewHttpClient _ => true
  | _ => false
  end.

Definition constructions (w : World) : nat :=
  length (filter (λ e, isConstruction e = true) (trace w)).

(** C2 as the specification words it: whenever the flag of a live
    client differs from the requested one, the flag has been flipped
    when Modification ends, whatever happens to a supplied proxy. *)
Definition C2_as_stated (L : Library) : Prop :=
  ∀ w l st proxyUrl followRedirects,
    heap w !! l = Some st →
    tls_client.followRedirects st ≠ followRedirects →
    tls_client.followRedirects
      <$> heap (finalWorld (handleModification L (clientAt l) proxyUrl
                              followRedirects w)) !! l
    = Some followRedirects.

(** The body [BuildRequest] hands to [http.NewRequest] (lines 55-67):
    an empty string counts as no body. *)
Definition effectiveBody (input : RequestInput) : option string :=
  match RequestBody input with
  | Some body => if decide (body = "") then None else Some body
  | None => None
  end.

(** The profile a new client is constructed with (lines 128-142). *)
Definition requestedProfile (L : Library) (ri : RequestInput)
  : tls_client.ClientProfile :=
  if decide (TLSClientIdentifier ri = "") then
    match CustomTlsClient_ ri with
    | Some custom =>
        let '(clientHelloId, h2Settings, h2SettingsOrder, pseudoHeaderOrder,
              connectionFlow, priorityFrames, _) :=
          getCustomTlsClientProfile L custom in
        tls_client.NewClientProfile clientHelloId h2Settings h2SettingsOrder
          pseudoHeaderOrder connectionFlow priorityFrames
    | None => tls_client.zeroProfile
    end
  else getTlsClientProfile L (TLSClientIdentifier ri).

(** The client object the options of lines 144-167 ask for. *)
Definition requestedClient (L : Library) (ri : RequestInput)
  : tls_client.httpClient :=
  {| tls_client.profile := requestedProfile L ri;
     tls_client.timeout :=
       tls_client.seconds
         (if decide (TimeoutSeconds ri = 0%Z) then DefaultTimeoutSeconds L
          else TimeoutSeconds ri);
     tls_client.followRedirects := FollowRedirects ri;
     tls_client.insecureSkipVerify := InsecureSkipVerify ri;
     tls_client.proxyUrl :=
       match ProxyUrl ri with
       | Some proxy => proxy
       | None => ""
       end |}.

(** Every handle in the registry that is not nil points to an object
    in the heap, and no two session ids share an object. *)
Definition wellFormed (w : World) : Prop :=
  ∀ sessionId l, clients w !! sessionId = Some (clientAt l) → l < length (heap w).

Definition distinctClients (w : World) : Prop :=
  ∀ s1 s2 l,
    clients w !! s1 = Some (clientAt l) → clients w !! s2 = Some (clientAt l) →
    s1 = s2.

(** A sequence of calls of [GetTlsClientFromInput], each with the id
    its [uuid.New()] generates, run one after the other. *)
Definition runCalls (L : Library) (calls : list (RequestInput * string))
    (w : World) : World :=
  fold_left (λ w call, finalWorld (GetTlsClientFromInput L call.1 call.2 w))
            calls w.

(** ** Stepping lemmas for the monad *)

Section Steps.
Context (L : Library).

Lemma bind_returns {A B} (m : M A) (k : A → M B) w a w' :
  m w = Returns a w' → bind m k w = k a w'.
Proof. intros H. unfold bind. by rewrite H. Qed.

Lemma bind_panics {A B} (m : M A) (k : A → M B) w w' :
  m w = Panics w' → bind m k w = Panics w'.
Proof. intros H. unfold bind. by rewrite H. Qed.

Lemma lookupClient_run sid w :
  lookupClient sid w =
    Returns (clients w !! sid) (logEvent (EvRegistryLookup sid) w).
Proof. reflexivity. Qed.

Lemma storeClient_run sid c w :
  storeClient sid c w =
    Returns tt (writeRegistry sid c (logEvent (EvRegistryStore sid c) w)).
Proof. reflexivity. Qed.

Lemma deref_live l st w :
  heap w !! l = Some st → deref (clientAt l) w = Returns st w.
Proof. intros H. unfold deref. by rewrite H. Qed.

Lemma GetProxy_live l st w :
  heap w !! l = Some st →
  GetProxy (clientAt l) w = Returns (tls_client.proxyUrl st) w.
Proof. intros H. unfold GetProxy. by rewrite (bind_returns _ _ _ _ _ (deref_live _ _ _ H)). Qed.

Lemma GetFollowRedirect_live l st w :
  heap w !! l = Some st →
  GetFollowRedirect (clientAt l) w = Returns (tls_client.followRedirects st) w.
Proof.
  intros H. unfold GetFollowRedirect.
  by rewrite (bind_returns _ _ _ _ _ (deref_live _ _ _ H)).
Qed.

Lemma SetFollowRedirect_live l st b w :
  heap w !! l = Some st →
  SetFollowRedirect (clientAt l) b w =
    Returns tt (writeHeap l (tls_client.setFollowRedirects b st)
                  (logEvent (EvSetFollowRedirect (clientAt l) b) w)).
Proof.
  intros H. unfold SetFollowRedirect.
  by rewrite (bind_returns _ _ _ _ _ (deref_live _ _ _ H)).
Qed.

Lemma SetProxy_accepted l st url w :
  heap w !! l = Some st → proxy_check L url = None →
  SetProxy L (clientAt l) url w =
    Returns None (writeHeap l (tls_client.setProxyUrl url st)
                    (logEvent (EvSetProxy (clientAt l) url) w)).
Proof.
  intros H Hc. unfold SetProxy.
  rewrite (bind_returns _ _ _ _ _ (deref_live _ _ _ H)).
  unfold bind, emit. by rewrite Hc.
Qed.

Lemma SetProxy_rejected l st url e w :
  heap w !! l = Some st → proxy_check L url = Some e →
  SetProxy L (clientAt l) url w =
    Returns (Some e) (logEvent (EvSetProxy (clientAt l) url) w).
Proof.
  intros H Hc. unfold SetProxy.
  rewrite (bind_returns _ _ _ _ _ (deref_live _ _ _ H)).
  unfold bind, emit. by rewrite Hc.
Qed.

Lemma writeHeap_lookup l st w :
  l < length (heap w) → heap (writeHeap l st w) !! l = Some st.
Proof. intros H. simpl. by apply list_lookup_insert_eq. Qed.

Lemma handleModification_rejected l st proxy follow url e w :
  heap w !! l = Some st →
  proxyChangeRejected L st proxy = Some (url, e) →
  handleModification L (clientAt l) proxy follow w =
    Returns (nilClient, false,
             Some (Wrapf "failed to change proxy url of client" e))
            (logEvent (EvSetProxy (clientAt l) url) w).
Proof.
  intros Hl Hr. unfold proxyChangeRejected in Hr.
  destruct proxy as [u|]; [|done].
  destruct (decide (tls_client.proxyUrl st = u)) as [|Hne]; [done|].
  destruct (proxy_check L u) as [e'|] eqn:Hc; [|done].
  injection Hr as -> ->.
  unfold handleModification.
  erewrite bind_returns; cycle 1.
  { erewrite bind_returns; [|by apply GetProxy_live].
    rewrite decide_False; [|done].
    erewrite bind_returns; [|by eapply SetProxy_rejected].
    reflexivity. }
  reflexivity.
Qed.

Lemma handleModification_accepted l st proxy follow w :
  heap w !! l = Some st →
  proxyChangeRejected L st proxy = None →
  ∃ w',
    handleModification L (clientAt l) proxy follow w =
      Returns (clientAt l, modificationChanged st proxy follow, None) w'
    ∧ clients w' = clients w
    ∧ heap w' = <[l := modified st proxy follow]> (heap w)
    ∧ trace w' = trace w ++ modificationEvents l st proxy follow.
Proof.
  intros Hl Hr. pose proof (lookup_lt_Some _ _ _ Hl) as Hlt.
  unfold proxyChangeRejected in Hr.
  unfold handleModification, modificationChanged, modificationEvents, modified.
  destruct proxy as [u|]; simpl proxyAfter.
  - destruct (decide (tls_client.proxyUrl st = u)) as [Heq|Hne].
    + rewrite (bool_decide_eq_false_2 (_ ≠ u)); [|by intros []].
      destruct (decide (tls_client.followRedirects st = follow)) as [Hf|Hf].
      * rewrite bool_decide_eq_false_2; [|by intros []].
        eexists; split; [|split; [|split]].
        -- erewrite bind_returns; cycle 1.
           { erewrite bind_returns; [|by apply GetProxy_live].
             rewrite decide_True; [|done]. reflexivity. }
           cbv beta iota.
           erewrite bind_returns; [|by apply GetFollowRedirect_live].
           rewrite decide_True; [|done]. reflexivity.
        -- done.
        -- symmetry. apply list_insert_id. rewrite Hl. f_equal.
           destruct st; simpl in *; by subst.
        -- simpl; rewrite <- ?app_assoc; simpl; by rewrite ?app_nil_r.
      * rewrite bool_decide_eq_true_2; [|done].
        eexists; split; [|split; [|split]].
        -- erewrite bind_returns; cycle 1.
           { erewrite bind_returns; [|by apply GetProxy_live].
             rewrite decide_True; [|done]. reflexivity. }
           cbv beta iota.
           erewrite bind_returns; [|by apply GetFollowRedirect_live].
           rewrite decide_False; [|done].
           erewrite bind_returns; [|by apply SetFollowRedirect_live].
           reflexivity.
        -- done.
        -- simpl. f_equal. destruct st; simpl in *; by subst.
        -- done.
    + destruct (proxy_check L u) as [e|] eqn:Hc; [done|].
      rewrite (bool_decide_eq_true_2 (_ ≠ u)); [|done].
      destruct (decide (tls_client.followRedirects st = follow)) as [Hf|Hf].
      * eexists; split; [|split; [|split]].
        -- erewrite bind_returns; cycle 1.
           { erewrite bind_returns; [|by apply GetProxy_live].
             rewrite decide_False; [|done].
             erewrite bind_returns; [|by eapply SetProxy_accepted].
             reflexivity. }
           cbv beta iota.
           erewrite bind_returns; cycle 1.
           { apply GetFollowRedirect_live. by apply writeHeap_lookup. }
           rewrite decide_True; [|done]. reflexivity.
        -- done.
        -- simpl. f_equal. destruct st; simpl in *; by subst.
        -- simpl; rewrite <- ?app_assoc; simpl; by rewrite ?app_nil_r.
      * eexists; split; [|split; [|split]].
        -- erewrite bind_returns; cycle 1.
           { erewrite bind_returns; [|by apply GetProxy_live].
             rewrite decide_False; [|done].
             erewrite bind_returns; [|by eapply SetProxy_accepted].
             reflexivity. }
           cbv beta iota.
           erewrite bind_returns; cycle 1.
           { apply GetFollowRedirect_live. by apply writeHeap_lookup. }
           rewrite decide_False; [|done].
           erewrite bind_returns; cycle 1.
           { apply SetFollowRedirect_live. by apply writeHeap_lookup. }
           reflexivity.
        -- done.
        -- simpl. by rewrite list_insert_insert_eq.
        -- simpl; rewrite <- ?app_assoc; simpl; by rewrite ?app_nil_r.
  - rewrite decide_True; [|done].
    rewrite (bool_decide_eq_false_2 (_ ≠ _)); [|by intros []].
    destruct (decide (tls_client.followRedirects st = follow)) as [Hf|Hf].
    + rewrite bool_decide_eq_false_2; [|by intros []].
      eexists; split; [|split; [|split]].
      * erewrite bind_returns; [|reflexivity]. cbv beta iota.
        erewrite bind_returns; [|by apply GetFollowRedirect_live].
        rewrite decide_True; [|done]. reflexivity.
      * done.
      * symmetry. apply list_insert_id. rewrite Hl. f_equal.
        destruct st; simpl in *; by subst.
      *  simpl; rewrite <- ?app_assoc; simpl; by rewrite ?app_nil_r.
    + rewrite bool_decide_eq_true_2; [|done].
      eexists; split; [|split; [|split]].
      * erewrite bind_returns; [|reflexivity]. cbv beta iota.
        erewrite bind_returns; [|by apply GetFollowRedirect_live].
        rewrite decide_False; [|done].
        erewrite bind_returns; [|by apply SetFollowRedirect_live].
        reflexivity.
      * done.
      * simpl. done.
      * done.
Qed.

Lemma getTlsClient_rejected ri sid l st url e w :
  liveSession w sid l st →
  proxyChangeRejected L st (ProxyUrl ri) = Some (url, e) →
  getTlsClient L ri sid w =
    Returns (nilClient,
             Some (Wrapf "failed to modify existing client"
                     (Wrapf "failed to change proxy url of client" e)))
            (logEvent (EvSetProxy (clientAt l) url)
               (logEvent (EvRegistryLookup sid) w)).
Proof.
  intros [Hc Hl] Hr. unfold getTlsClient.
  erewrite bind_returns; [|apply lookupClient_run]. rewrite Hc.
  erewrite bind_returns; [|by eapply handleModification_rejected].
  reflexivity.
Qed.

Lemma getTlsClient_accepted ri sid l st w :
  liveSession w sid l st →
  proxyChangeRejected L st (ProxyUrl ri) = None →
  ∃ w',
    getTlsClient L ri sid w = Returns (clientAt l, None) w'
    ∧ clients w' = clients w
    ∧ heap w' = <[l := modified st (ProxyUrl ri) (FollowRedirects ri)]> (heap w)
    ∧ trace w' =
        trace w ++ [EvRegistryLookup sid]
        ++ modificationEvents l st (ProxyUrl ri) (FollowRedirects ri)
        ++ (if modificationChanged st (ProxyUrl ri) (FollowRedirects ri)
            then [EvRegistryStore sid (clientAt l)] else []).
Proof.
  intros [Hc Hl] Hr.
  destruct (handleModification_accepted l st (ProxyUrl ri) (FollowRedirects ri)
              (logEvent (EvRegistryLookup sid) w) Hl Hr)
    as (w1 & Hrun & Hcl & Hh & Ht).
  unfold getTlsClient.
  destruct (modificationChanged st (ProxyUrl ri) (FollowRedirects ri)) eqn:Hch.
  - eexists; split; [|split; [|split]].
    + erewrite bind_returns; [|apply lookupClient_run]. rewrite Hc.
      erewrite bind_returns; [|exact Hrun]. cbv beta iota.
      erewrite bind_returns; [|apply storeClient_run]. reflexivity.
    + simpl. rewrite Hcl. simpl. by apply insert_id.
    + simpl. by rewrite Hh.
    + simpl. rewrite Ht. simpl. by rewrite <- !app_assoc.
  - eexists; split; [|split; [|split]].
    + erewrite bind_returns; [|apply lookupClient_run]. rewrite Hc.
      erewrite bind_returns; [|exact Hrun]. cbv beta iota.
      erewrite bind_returns; [|reflexivity]. reflexivity.
    + by rewrite Hcl.
    + by rewrite Hh.
    + rewrite Ht. simpl. by rewrite app_nil_r, <- app_assoc.
Qed.

Lemma GetTlsClientFromInput_valid ri uuid w :
  passesValidation ri →
  GetTlsClientFromInput L ri uuid w =
    bind (getTlsClient L ri (resolvedSessionId ri uuid))
         (λ '(tlsClient, err),
            match err with
            | Some e =>
                ret (nilClient, resolvedSessionId ri uuid,
                     Some (NewTLSClientError
                             (Wrapf "failed to build client out of request input" e)))
            | None => ret (tlsClient, resolvedSessionId ri uuid, None)
            end) w.
Proof.
  intros [H1 H2]. unfold GetTlsClientFromInput.
  rewrite decide_False; [|done]. rewrite decide_False; [|done]. reflexivity.
Qed.

Lemma resolvedSessionId_supplied ri uuid sid :
  SessionId ri = Some sid → sid ≠ "" → resolvedSessionId ri uuid = sid.
Proof.
  intros H Hne. unfold resolvedSessionId. rewrite H. by rewrite decide_False.
Qed.

(** A call for a session id without an entry (lines 128-173): it
    returns; on success the handle is a new object, stored under the
    id; on failure the heap is as before and the registry is as
    before or holds a nil handle under the id. *)
Lemma getTlsClient_absent ri sid w :
  clients w !! sid = None →
  ∃ c err w',
    getTlsClient L ri sid w = Returns (c, err) w'
    ∧ (∀ l st, heap w !! l = Some st → heap w' !! l = Some st)
    ∧ ((err = None ∧ c = clientAt (length (heap w))
        ∧ (∃ st, heap w' = heap w ++ [st])
        ∧ clients w' = <[sid := c]> (clients w))
       ∨ (∃ e, err = Some e ∧ heap w' = heap w
          ∧ (clients w' = clients w
             ∨ clients w' = <[sid := nilClient]> (clients w)))).
Proof.
  intros Hc. unfold getTlsClient.
  erewrite bind_returns; [|apply lookupClient_run]. rewrite Hc.
  unfold bind, ret, emit, NewHttpClient, storeClient, bind, emit.
  repeat first
    [ progress simpl
    | match goal with
      | |- context [match ?x with _ => _ end] =>
          lazymatch x with
          | context [match _ with _ => _ end] => fail
          | _ => destruct x eqn:?
          end
      end ];
  try (eexists _, _, _; split; [reflexivity|]; simpl; split; [by auto|];
       first [ right; eexists; split; [reflexivity|]; split; [done|]; by auto
             | left; split; [done|]; split; [done|]; split; [by eexists|done] ]).
  all: eexists _, _, _; split; [reflexivity|]; simpl; split;
    [ intros l' st' Hl'; by apply lookup_app_l_Some|].
  all: left; split; [done|]; split; [done|]; split; [by eexists|done].
Qed.
End Steps.

(** ** Properties of the entry point *)

Section EntryPoint.
Context (L : Library).

(** Whatever a call returns, the session id it returns is the
    resolved one. *)
Lemma GetTlsClientFromInput_sessionId ri uuid w c sid e w' :
  GetTlsClientFromInput L ri uuid w = Returns (c, sid, e) w' →
  sid = resolvedSessionId ri uuid.
Proof.
  unfold GetTlsClientFromInput. fold (resolvedSessionId ri uuid).
  destruct (decide _); [by inversion 1|].
  destruct (decide _); [by inversion 1|].
  unfold bind. destruct (getTlsClient L ri _ w) as [[c' [e'|]] w1|w1];
    by inversion 1.
Qed.

Lemma GetTlsClientFromInput_invalid ri uuid w :
  (TLSClientIdentifier ri ≠ "" ∧ CustomTlsClient_ ri ≠ None)
  ∨ (TLSClientIdentifier ri = "" ∧ CustomTlsClient_ ri = None) →
  ∃ e,
    GetTlsClientFromInput L ri uuid w
      = Returns (nilClient, resolvedSessionId ri uuid, Some e) w
    ∧ isValidationError e = true.
Proof.
  intros H. unfold GetTlsClientFromInput. fold (resolvedSessionId ri uuid).
  destruct H as [H|H].
  - rewrite decide_True; [|done]. by eexists.
  - rewrite decide_False; [|intros [Hid _]; by destruct H].
    rewrite decide_True; [|done]. by eexists.
Qed.

(** C4: an input with both a TLS client identifier and a custom
    definition, or with neither, is answered with a validation error;
    the call ends in the world it started in, so it has neither read
    nor written the session registry. *)
Theorem C4_both_or_neither_is_validation_error ri uuid w :
  (TLSClientIdentifier ri ≠ "" ∧ CustomTlsClient_ ri ≠ None)
  ∨ (TLSClientIdentifier ri = "" ∧ CustomTlsClient_ ri = None) →
  ∃ e,
    GetTlsClientFromInput L ri uuid w
      = Returns (nilClient, resolvedSessionId ri uuid, Some e) w
    ∧ isValidationError e = true
    ∧ clients (finalWorld (GetTlsClientFromInput L ri uuid w)) = clients w
    ∧ filter (λ ev, isRegistryAccess ev = true)
             (trace (finalWorld (GetTlsClientFromInput L ri uuid w)))
      = filter (λ ev, isRegistryAccess ev = true) (trace w).
Proof.
  intros H. destruct (GetTlsClientFromInput_invalid ri uuid w H) as (e & Hrun & He).
  exists e. rewrite Hrun. done.
Qed.

(** C9: on every return the session id is the supplied one when that
    is present and non-empty, and the id generated in this call
    otherwise; it is never empty, the generator's ids being
    non-empty.  The call does return whenever the registry holds no
    entry for the id or holds a live client for it. *)
Theorem C9_returned_session_id ri uuid w :
  uuid ≠ "" →
  (∀ c sid e w',
      GetTlsClientFromInput L ri uuid w = Returns (c, sid, e) w' →
      (∀ s, SessionId ri = Some s → s ≠ "" → sid = s)
      ∧ (SessionId ri = None ∨ SessionId ri = Some "" → sid = uuid)
      ∧ sid ≠ "")
  ∧ (clients w !! resolvedSessionId ri uuid = None
     ∨ (∃ l st, liveSession w (resolvedSessionId ri uuid) l st) →
     ∃ c sid e w', GetTlsClientFromInput L ri uuid w = Returns (c, sid, e) w').
Proof.
  intros Hu. split.
  - intros c sid e w' Hrun.
    apply GetTlsClientFromInput_sessionId in Hrun as ->.
    unfold resolvedSessionId. split; [|split].
    + intros s -> Hs. by rewrite decide_False.
    + intros [->| ->]; [done|]. by rewrite decide_True.
    + destruct (SessionId ri) as [s|]; [|done].
      by destruct (decide (s = "")).
  - intros Hentry.
    destruct (decide (TLSClientIdentifier ri ≠ "" ∧ CustomTlsClient_ ri ≠ None))
      as [Hb|Hb].
    { destruct (GetTlsClientFromInput_invalid ri uuid w (or_introl Hb))
        as (e & -> & _). by eexists _, _, _, _. }
    destruct (decide (TLSClientIdentifier ri = "" ∧ CustomTlsClient_ ri = None))
      as [Hn|Hn].
    { destruct (GetTlsClientFromInput_invalid ri uuid w (or_intror Hn))
        as (e & -> & _). by eexists _, _, _, _. }
    rewrite GetTlsClientFromInput_valid; [|done].
    destruct Hentry as [Hab|(l & st & Hlive)].
    + destruct (getTlsClient_absent L ri _ w Hab) as (c & err & w' & Hrun & _).
      erewrite bind_returns; [|exact Hrun].
      destruct err; by eexists _, _, _, _.
    + destruct (proxyChangeRejected L st (ProxyUrl ri)) as [[url e]|] eqn:Hr.
      * erewrite bind_returns; [|by eapply getTlsClient_rejected].
        by eexists _, _, _, _.
      * destruct (getTlsClient_accepted L ri _ l st w Hlive Hr) as (w' & Hrun & _).
        erewrite bind_returns; [|exact Hrun]. by eexists _, _, _, _.
Qed.
End EntryPoint.

(** ** Request and response translation *)

Section Translators.
Context (L : Library).

Lemma finishRequest_created input method url body w :
  ∃ req err w',
    bind (NewRequest L method url body) (finishRequest L input) w
      = Returns (req, err) w'
    ∧ (∀ e, err = Some e → isValidationError e = false)
    ∧ trace w' = trace w ++ [EvNewRequest method url body].
Proof.
  unfold bind, NewRequest, emit, ret.
  destruct (request_check L method url) as [e|] eqn:Hc; simpl.
  - eexists _, _, _; split; [reflexivity|]. split; [|done].
    by intros e' [= <-].
  - eexists _, _, _; split; [reflexivity|]. split; [|done]. done.
Qed.

(** C7: [BuildRequest] always returns, and it returns a validation
    error exactly when the method or the URL is empty, or a non-empty
    body comes with neither of the header keys [content-type] and
    [Content-Type]; in that case no request object has been
    constructed.  In every other case it constructs exactly one. *)
Theorem C7_BuildRequest_validation input w :
  ∃ req err w',
    BuildRequest L input w = Returns (req, err) w'
    ∧ ((∃ e, err = Some e ∧ isValidationError e = true)
       ↔ (RequestMethod input = "" ∨ RequestUrl input = ""
          ∨ (∃ body, RequestBody input = Some body ∧ body ≠ ""
                     ∧ Headers input !! "content-type" = None
                     ∧ Headers input !! "Content-Type" = None)))
    ∧ ((∃ e, err = Some e ∧ isValidationError e = true) → w' = w ∧ req = None)
    ∧ (¬ (∃ e, err = Some e ∧ isValidationError e = true) →
       ∃ body, trace w' =
                 trace w ++ [EvNewRequest (RequestMethod input) (RequestUrl input) body]).
Proof.
  unfold BuildRequest.
  destruct (decide (RequestMethod input = "" ∨ RequestUrl input = "")) as [Hm|Hm].
  { eexists _, _, _; split; [reflexivity|]. split; [|split].
    - split; [intros _; tauto|]. intros _. by eexists.
    - done.
    - intros Hn. exfalso. apply Hn. by eexists. }
  assert (∀ body,
    ∃ req err w',
      bind (NewRequest L (RequestMethod input) (RequestUrl input) body)
           (finishRequest L input) w = Returns (req, err) w'
      ∧ ((∃ e, err = Some e ∧ isValidationError e = true) ↔ False)
      ∧ trace w' = trace w
                   ++ [EvNewRequest (RequestMethod input) (RequestUrl input) body])
    as Hgo.
  { intros body.
    destruct (finishRequest_created input (RequestMethod input)
                (RequestUrl input) body w) as (req & err & w' & Hrun & Hnv & Ht).
    exists req, err, w'. split; [done|]. split; [|done].
    split; [|done]. intros (e & -> & He). by rewrite (Hnv e eq_refl) in He. }
  destruct (RequestBody input) as [body|] eqn:Hb.
  - destruct (decide (body = "")) as [->|Hne].
    + destruct (Hgo None) as (req & err & w' & Hrun & Hiff & Ht).
      exists req, err, w'. split; [done|]. split; [|split].
      * rewrite Hiff. split; [done|].
        intros [?|[?|(b & [= <-] & Hb' & _)]]; tauto.
      * intros Hv. by apply Hiff in Hv.
      * intros _. by eexists.
    + destruct (Headers input !! "content-type") as [v1|] eqn:H1;
        [|destruct (Headers input !! "Content-Type") as [v2|] eqn:H2].
      * destruct (Hgo (Some body)) as (req & err & w' & Hrun & Hiff & Ht).
        exists req, err, w'. split; [done|]. split; [|split].
        -- rewrite Hiff. split; [done|].
           intros [?|[?|(b & _ & _ & ? & _)]]; [tauto|tauto|done].
        -- intros Hv. by apply Hiff in Hv.
        -- intros _. by eexists.
      * destruct (Hgo (Some body)) as (req & err & w' & Hrun & Hiff & Ht).
        exists req, err, w'. split; [done|]. split; [|split].
        -- rewrite Hiff. split; [done|].
           intros [?|[?|(b & _ & _ & _ & ?)]]; [tauto|tauto|done].
        -- intros Hv. by apply Hiff in Hv.
        -- intros _. by eexists.
      * eexists _, _, _; split; [reflexivity|]. split; [|split].
        -- split; [|intros _; by eexists].
           intros _. right; right. by exists body.
        -- done.
        -- intros Hn. exfalso. apply Hn. by eexists.
  - destruct (Hgo None) as (req & err & w' & Hrun & Hiff & Ht).
    exists req, err, w'. split; [done|]. split; [|split].
    + rewrite Hiff. split; [done|].
      intros [?|[?|(b & ? & _)]]; [tauto|tauto|done].
    + intros Hv. by apply Hiff in Hv.
    + intros _. by eexists.
Qed.

(** C10: when draining the body fails, [BuildResponse] returns the
    error together with the zero-valued [Response]; and whenever it
    returns an error at all, the response beside it is the zero
    value, whose fields are all empty. *)
Theorem C10_BuildResponse_error_is_zero sessionId response cookies w :
  (∀ body e, http.Body response = (body, Some e) →
     ∃ w', BuildResponse L sessionId response cookies w
           = Returns (resp.zero, Some (NewTLSClientError e)) w')
  ∧ (∀ r e w', BuildResponse L sessionId response cookies w
               = Returns (r, Some e) w' → r = resp.zero)
  ∧ (resp.SessionId resp.zero = "" ∧ resp.Status resp.zero = 0%Z
     ∧ resp.Body resp.zero = "" ∧ resp.Headers resp.zero = ∅
     ∧ resp.Cookies resp.zero = ∅).
Proof.
  unfold BuildResponse, bind, emit, ret. split; [|split].
  - intros body e ->. by eexists.
  - intros r e w'. destruct (http.Body response) as [body [e'|]]; by inversion 1.
  - done.
Qed.
End Translators.

(** ** Cookies *)

Section Cookies.
Context (L : Library).

Abbreviation put := (λ (ret : gmap string string) c,
                   <[http.Name c := Cookie_String L c]> ret).

Lemma cookies_fold_dom cookies (m : gmap string string) :
  dom (fold_left put cookies m) = dom m ∪ list_to_set (http.Name <$> cookies).
Proof.
  revert m. induction cookies as [|c cookies IH]; intros m; simpl.
  - set_solver.
  - rewrite IH, dom_insert_L. set_solver.
Qed.

Lemma cookies_fold_other cookies (m : gmap string string) name :
  Forall (λ c, http.Name c ≠ name) cookies →
  fold_left put cookies m !! name = m !! name.
Proof.
  revert m. induction cookies as [|c cookies IH]; intros m Hall; simpl; [done|].
  inversion Hall as [|? ? Hc Hrest]; subst.
  rewrite IH; [|done]. by rewrite lookup_insert_ne.
Qed.

Lemma cookiesToMap_dom cookies :
  dom (cookiesToMap L cookies) = list_to_set (http.Name <$> cookies).
Proof. unfold cookiesToMap. rewrite cookies_fold_dom. set_solver. Qed.

Lemma cookiesToMap_size cookies :
  size (cookiesToMap L cookies) = length (remove_dups (http.Name <$> cookies)).
Proof.
  rewrite <- size_dom, cookiesToMap_dom.
  rewrite <- (size_list_to_set (C := gset string) (remove_dups _));
    [|apply NoDup_remove_dups].
  f_equal. apply set_eq. intros x.
  by rewrite !elem_of_list_to_set, elem_of_remove_dups.
Qed.

Lemma cookiesToMap_last pre c post :
  Forall (λ c', http.Name c' ≠ http.Name c) post →
  cookiesToMap L (pre ++ c :: post) !! http.Name c = Some (Cookie_String L c).
Proof.
  intros Hpost. unfold cookiesToMap. rewrite fold_left_app. simpl.
  rewrite cookies_fold_other; [|done]. by rewrite lookup_insert_eq.
Qed.

(** C6: when the body is read, the cookie mapping of the response has
    as keys exactly the names that occur in the cookie list, one
    entry per distinct name, and under each name the serialised
    string of the last cookie in the list that carries it. *)
Theorem C6_cookie_mapping sessionId response cookies body w :
  http.Body response = (body, None) →
  ∃ r w',
    BuildResponse L sessionId response cookies w = Returns (r, None) w'
    ∧ dom (resp.Cookies r) = list_to_set (http.Name <$> cookies)
    ∧ size (resp.Cookies r) = length (remove_dups (http.Name <$> cookies))
    ∧ (∀ pre c post,
          cookies = pre ++ c :: post →
          Forall (λ c', http.Name c' ≠ http.Name c) post →
          resp.Cookies r !! http.Name c = Some (Cookie_String L c)).
Proof.
  intros Hb. unfold BuildResponse, bind, emit, ret. rewrite Hb.
  eexists _, _. split; [reflexivity|]. simpl. split; [|split].
  - apply cookiesToMap_dom.
  - apply cookiesToMap_size.
  - intros pre c post -> Hpost. by apply cookiesToMap_last.
Qed.
End Cookies.

(** ** The custom profile *)

Section CustomProfile.
Context (L : Library).

Lemma append_loop {A B} (f : A → B) (l : list A) (acc : list B) :
  fold_left (λ acc x, acc ++ [f x]) l acc = acc ++ (f <$> l).
Proof.
  revert acc. induction l as [|x l IH]; intros acc; simpl.
  - by rewrite app_nil_r.
  - rewrite IH. by rewrite <- app_assoc.
Qed.

(** C5: for a custom definition whose JA3 string parses, the profile
    built from [getCustomTlsClientProfile] carries the settings
    order, the pseudo-header order and the priority frames of the
    input, element for element and in the input's order. *)
Theorem C5_custom_profile_preserves_order custom :
  ja3_check L (Ja3String custom) = None →
  ∃ clientHelloId h2Settings priorityFrames,
    getCustomTlsClientProfile L custom =
      (clientHelloId, h2Settings, H2SettingsOrder custom,
       PseudoHeaderOrder custom, ConnectionFlow custom, priorityFrames, None)
    ∧ (let p := tls_client.NewClientProfile clientHelloId h2Settings
                  (H2SettingsOrder custom) (PseudoHeaderOrder custom)
                  (ConnectionFlow custom) priorityFrames in
       tls_client.settingsOrder p = H2SettingsOrder custom
       ∧ tls_client.pseudoHeaderOrder p = PseudoHeaderOrder custom
       ∧ Forall2 samePriority (PriorityFrames_ custom) (tls_client.priorities p)).
Proof.
  intros Hja3. unfold getCustomTlsClientProfile, GetSpecFactorFromJa3String.
  rewrite Hja3.
  rewrite (append_loop (λ x : Z, x)), list_fmap_id. simpl "++".
  eexists _, _, _. split; [reflexivity|]. simpl. split; [done|]. split; [done|].
  rewrite (append_loop
             (λ priority, {| http2.StreamID := StreamID priority;
                             http2.Param := _ |})).
  simpl. apply Forall2_fmap_r, Forall_Forall2_diag, Forall_forall.
  intros p _. by unfold samePriority.
Qed.
End CustomProfile.

(** ** The session registry *)

Section Registry.
Context (L : Library).

Lemma handleModification_nil proxy follow w :
  handleModification L nilClient proxy follow w = Panics w.
Proof. unfold handleModification. by destruct proxy. Qed.

Lemma handleModification_dangling l proxy follow w :
  heap w !! l = None →
  handleModification L (clientAt l) proxy follow w = Panics w.
Proof.
  intros Hl. unfold handleModification, bind, GetProxy, GetFollowRedirect, bind, deref.
  destruct proxy; simpl; by rewrite Hl.
Qed.

Lemma getTlsClient_dead ri sid c w :
  clients w !! sid = Some c →
  (c = nilClient ∨ ∃ l, c = clientAt l ∧ heap w !! l = None) →
  getTlsClient L ri sid w = Panics (logEvent (EvRegistryLookup sid) w).
Proof.
  intros Hc Hdead. unfold getTlsClient.
  erewrite bind_returns; [|apply lookupClient_run]. rewrite Hc.
  apply bind_panics. destruct Hdead as [->|(l & -> & Hl)].
  - apply handleModification_nil.
  - by apply handleModification_dangling.
Qed.

(** Lines 128-135 when the JA3 string of the custom definition does
    not parse: the error is returned before anything is constructed
    or stored. *)
Lemma getTlsClient_absent_ja3 ri sid custom e w :
  clients w !! sid = None →
  CustomTlsClient_ ri = Some custom →
  ja3_check L (Ja3String custom) = Some e →
  getTlsClient L ri sid w =
    Returns (nilClient,
             Some (Wrapf "can not build http client out of custom tls client information" e))
            (logEvent (EvCustomProfile (Ja3String custom))
               (logEvent (EvRegistryLookup sid) w)).
Proof.
  intros Hc Hcu Hja3. unfold getTlsClient.
  erewrite bind_returns; [|apply lookupClient_run]. rewrite Hc, Hcu.
  unfold getCustomTlsClientProfile, GetSpecFactorFromJa3String. rewrite Hja3.
  reflexivity.
Qed.

(** Lines 137-173 once a profile is at hand: the client constructor
    is called once and its handle is stored under the session id,
    whether or not the constructor reported an error. *)
Lemma getTlsClient_absent_construct ri sid w :
  clients w !! sid = None →
  ja3Rejected L ri = None →
  ∃ c err w' options,
    getTlsClient L ri sid w = Returns (c, err) w'
    ∧ clients w' = <[sid := c]> (clients w)
    ∧ constructions w' = S (constructions w)
    ∧ In (EvNewHttpClient options) (trace w')
    ∧ ((∃ e, err = Some e ∧ c = nilClient ∧ heap w' = heap w
             ∧ construct_check L
                 (fold_left tls_client.applyOption options (defaultConfig L)) = Some e)
       ∨ (err = None ∧ c = clientAt (length (heap w))
          ∧ heap w' = heap w
                      ++ [fold_left tls_client.applyOption options (defaultConfig L)])).
Proof.
  intros Hc Hja3. unfold getTlsClient.
  erewrite bind_returns; [|apply lookupClient_run]. rewrite Hc.
  unfold ja3Rejected in Hja3.
  unfold getCustomTlsClientProfile, GetSpecFactorFromJa3String.
  unfold constructions.
  unfold bind, ret, emit, NewHttpClient, storeClient, bind, emit.
  repeat first
    [ progress simpl
    | match goal with
      | |- context [match ?x with _ => _ end] =>
          lazymatch x with
          | context [match _ with _ => _ end] => fail
          | _ => destruct x eqn:?
          end
      end ];
  try congruence.
  all: eexists _, _, _, _; split; [reflexivity|]; simpl.
  all: rewrite ?filter_app, ?length_app; simpl.
  all: split; [done|]; split; [lia|].
  all: split; [rewrite ?in_app_iff; simpl; by auto 10|].
  all: first [ left; eexists; split; [reflexivity|]; split; [done|]; split; [done|];
               eassumption
             | right; by split ].
Qed.
End Registry.

Section Reuse.
Context (L : Library).

Lemma modificationEvents_no_resolution l st proxy follow :
  Forall (λ ev, isResolution ev = false) (modificationEvents l st proxy follow).
Proof.
  unfold modificationEvents. apply Forall_app. split.
  - destruct (decide _); by repeat constructor.
  - destruct (decide _); by repeat constructor.
Qed.

Lemma constructions_extends w w' evs :
  trace w' = trace w ++ evs →
  Forall (λ ev, isConstruction ev = false) evs →
  constructions w' = constructions w.
Proof.
  intros Ht Hall. unfold constructions. rewrite Ht, filter_app, length_app.
  clear Ht.
  assert (filter (λ e, isConstruction e = true) evs = []) as ->; [|simpl; lia].
  induction Hall as [|ev evs Hev _ IH]; [done|].
  rewrite filter_cons_False; [exact IH|]. by rewrite Hev.
Qed.

Lemma no_resolution_no_construction evs :
  Forall (λ ev, isResolution ev = false) evs →
  Forall (λ ev, isConstruction ev = false) evs.
Proof. intros H. eapply Forall_impl; [exact H|]. by intros []. Qed.

(** A call for a session with a live client. *)
Lemma GetTlsClientFromInput_live ri uuid sid l st w :
  passesValidation ri →
  resolvedSessionId ri uuid = sid →
  liveSession w sid l st →
  ∃ c e w' st' evs,
    GetTlsClientFromInput L ri uuid w = Returns (c, sid, e) w'
    ∧ liveSession w' sid l st'
    ∧ clients w' = clients w
    ∧ tls_client.profile st' = tls_client.profile st
    ∧ trace w' = trace w ++ evs
    ∧ Forall (λ ev, isResolution ev = false) evs
    ∧ match proxyChangeRejected L st (ProxyUrl ri) with
      | Some (url, err) =>
          c = nilClient ∧ e ≠ None ∧ heap w' = heap w ∧ st' = st
      | None =>
          c = clientAt l ∧ e = None
          ∧ st' = modified st (ProxyUrl ri) (FollowRedirects ri)
          ∧ heap w' = <[l := st']> (heap w)
      end.
Proof.
  intros Hv <- Hlive. rewrite GetTlsClientFromInput_valid; [|done].
  destruct (proxyChangeRejected L st (ProxyUrl ri)) as [[url err]|] eqn:Hr.
  - erewrite bind_returns; [|by eapply getTlsClient_rejected].
    destruct Hlive as [Hc Hl].
    eexists _, _, _, st, _. split; [reflexivity|].
    split; [by split|]. split; [done|]. split; [done|].
    split; [simpl; by rewrite <- app_assoc|].
    split; [by repeat constructor|]. done.
  - destruct (getTlsClient_accepted L ri _ l st w Hlive Hr)
      as (w' & Hrun & Hcl & Hh & Ht).
    erewrite bind_returns; [|exact Hrun].
    destruct Hlive as [Hc Hl]. pose proof (lookup_lt_Some _ _ _ Hl) as Hlt.
    eexists _, _, w', _, _. split; [reflexivity|].
    split; [|split; [done|split; [|split; [exact Ht|split]]]].
    + split; [by rewrite Hcl|]. rewrite Hh. by apply list_lookup_insert_eq.
    + done.
    + apply Forall_app. split; [by repeat constructor|].
      apply Forall_app. split; [apply modificationEvents_no_resolution|].
      destruct (modificationChanged _ _ _); by repeat constructor.
    + done.
Qed.

(** The registry entry of the session after a call that returned. *)
Lemma GetTlsClientFromInput_after ri uuid sid w c s e w1 :
  passesValidation ri →
  resolvedSessionId ri uuid = sid →
  GetTlsClientFromInput L ri uuid w = Returns (c, s, e) w1 →
  (∃ l st, liveSession w1 sid l st ∧ (e = None → c = clientAt l))
  ∨ (clients w1 !! sid = None ∧ e ≠ None ∧ is_Some (ja3Rejected L ri))
  ∨ (clients w1 !! sid = Some nilClient ∧ e ≠ None).
Proof.
  intros Hv Hsid Hrun.
  destruct (clients w !! sid) as [c0|] eqn:Hc.
  - assert (c0 = nilClient ∨ (∃ l, c0 = clientAt l ∧ heap w !! l = None) →
            False) as Hlive.
    { intros Hdead.
      rewrite GetTlsClientFromInput_valid in Hrun; [|done]. rewrite Hsid in Hrun.
      erewrite bind_panics in Hrun; [done|]. by eapply getTlsClient_dead. }
    destruct c0 as [|l]; [destruct Hlive; by left|].
    destruct (heap w !! l) as [st|] eqn:Hl; [|destruct Hlive; right; by exists l].
    destruct (GetTlsClientFromInput_live ri uuid sid l st w Hv Hsid (conj Hc Hl))
      as (c' & e' & w' & st' & evs & Hrun' & Hlive' & _ & _ & _ & _ & Hcase).
    rewrite Hrun' in Hrun. injection Hrun as <- <- <- <-.
    left. exists l, st'. split; [done|]. intros ->.
    destruct (proxyChangeRejected L st (ProxyUrl ri)) as [[? ?]|];
      [by destruct Hcase as (_ & ? & _)|by destruct Hcase as (? & _)].
  - rewrite GetTlsClientFromInput_valid in Hrun; [|done]. rewrite Hsid in Hrun.
    destruct (ja3Rejected L ri) as [err|] eqn:Hja3.
    + unfold ja3Rejected in Hja3.
      destruct (CustomTlsClient_ ri) as [custom|] eqn:Hcu; [|done].
      erewrite bind_returns in Hrun; [|by eapply getTlsClient_absent_ja3].
      injection Hrun as <- <- <- <-. right; left. by split.
    + destruct (getTlsClient_absent_construct L ri sid w Hc Hja3)
        as (c' & err & w' & options & Hrun' & Hcl & _ & _ & Hcase).
      erewrite bind_returns in Hrun; [|exact Hrun'].
      destruct Hcase as [(e0 & -> & -> & Hh & _)|(-> & -> & Hh)].
      * injection Hrun as <- <- <- <-. right; right.
        split; [|done]. rewrite Hcl. by apply lookup_insert_eq.
      * injection Hrun as <- <- <- <-. left. eexists _, _. split; [|done].
        split; [rewrite Hcl; by apply lookup_insert_eq|].
        rewrite Hh. by apply list_lookup_middle.
Qed.
End Reuse.

Section Sessions.
Context (L : Library).

Lemma finalWorld_bind_pure {A B} (m : M A) (k : A → M B) w :
  (∀ a w', finalWorld (k a w') = w') →
  finalWorld (bind m k w) = finalWorld (m w).
Proof. intros Hk. unfold bind. destruct (m w); [apply Hk|done]. Qed.

(** No call changes the profile of a client object: the profile is
    fixed when the object is constructed. *)
Lemma getTlsClient_profiles ri sid w l st :
  heap w !! l = Some st →
  ∃ st', heap (finalWorld (getTlsClient L ri sid w)) !! l = Some st'
         ∧ tls_client.profile st' = tls_client.profile st.
Proof.
  intros Hl. destruct (clients w !! sid) as [c0|] eqn:Hc.
  - destruct c0 as [|l0].
    { erewrite getTlsClient_dead; [|done|by left]. by exists st. }
    destruct (heap w !! l0) as [st0|] eqn:Hl0.
    2:{ erewrite getTlsClient_dead; [|done|right; by exists l0]. by exists st. }
    destruct (proxyChangeRejected L st0 (ProxyUrl ri)) as [[url e]|] eqn:Hr.
    + erewrite getTlsClient_rejected; [|done|done]. by exists st.
    + destruct (getTlsClient_accepted L ri sid l0 st0 w (conj Hc Hl0) Hr)
        as (w' & -> & _ & Hh & _).
      simpl. rewrite Hh. destruct (decide (l0 = l)) as [->|Hne].
      * rewrite list_lookup_insert_eq; [|by eapply lookup_lt_Some].
        eexists; split; [done|]. simpl. congruence.
      * rewrite list_lookup_insert_ne; [|done]. by exists st.
  - destruct (ja3Rejected L ri) as [err|] eqn:Hja3.
    + unfold ja3Rejected in Hja3.
      destruct (CustomTlsClient_ ri) as [custom|] eqn:Hcu; [|done].
      erewrite getTlsClient_absent_ja3; [|done..]. by exists st.
    + destruct (getTlsClient_absent_construct L ri sid w Hc Hja3)
        as (c' & err & w' & options & -> & _ & _ & _ & Hcase).
      simpl. exists st. split; [|done].
      destruct Hcase as [(e0 & _ & _ & -> & _)|(_ & _ & ->)]; [done|].
      by apply lookup_app_l_Some.
Qed.

Lemma GetTlsClientFromInput_profiles ri uuid w l st :
  heap w !! l = Some st →
  ∃ st', heap (finalWorld (GetTlsClientFromInput L ri uuid w)) !! l = Some st'
         ∧ tls_client.profile st' = tls_client.profile st.
Proof.
  intros Hl.
  destruct (decide (TLSClientIdentifier ri ≠ "" ∧ CustomTlsClient_ ri ≠ None))
    as [Hb|Hb].
  { destruct (GetTlsClientFromInput_invalid L ri uuid w (or_introl Hb))
      as (e & -> & _). by exists st. }
  destruct (decide (TLSClientIdentifier ri = "" ∧ CustomTlsClient_ ri = None))
    as [Hn|Hn].
  { destruct (GetTlsClientFromInput_invalid L ri uuid w (or_intror Hn))
      as (e & -> & _). by exists st. }
  rewrite GetTlsClientFromInput_valid; [|done].
  rewrite finalWorld_bind_pure; [by apply getTlsClient_profiles|].
  by intros [c [e|]] w'.
Qed.

(** Whatever the library, a failed construction for a session id
    without an entry leaves a nil handle under that id. *)
Lemma GetTlsClientFromInput_failed_construction ri uuid w c s e w' :
  passesValidation ri →
  clients w !! resolvedSessionId ri uuid = None →
  ja3Rejected L ri = None →
  GetTlsClientFromInput L ri uuid w = Returns (c, s, Some e) w' →
  clients w' !! resolvedSessionId ri uuid = Some nilClient.
Proof.
  intros Hv Hc Hja3 Hrun. rewrite GetTlsClientFromInput_valid in Hrun; [|done].
  destruct (getTlsClient_absent_construct L ri _ w Hc Hja3)
    as (c' & err & w1 & options & Hrun' & Hcl & _ & _ & Hcase).
  erewrite bind_returns in Hrun; [|exact Hrun'].
  destruct Hcase as [(e0 & -> & -> & _)|(-> & _)]; [|done].
  injection Hrun as <- <- <- <-. rewrite Hcl. by apply lookup_insert_eq.
Qed.

(** C2, amended: for a live client whose follow-redirects flag
    differs from the requested one, [handleModification] flips the
    flag and returns the handle without error whenever no proxy
    change is attempted (no proxy supplied, or the supplied one is
    the current one) or the client accepts the new proxy; when the
    client rejects the new proxy, [handleModification] returns that
    error at once and the flag is as it was. *)
Theorem C2_flag_flipped_unless_proxy_rejected l st proxyUrl followRedirects w :
  heap w !! l = Some st →
  tls_client.followRedirects st ≠ followRedirects →
  match proxyChangeRejected L st proxyUrl with
  | None =>
      ∃ w',
        handleModification L (clientAt l) proxyUrl followRedirects w
          = Returns (clientAt l, true, None) w'
        ∧ tls_client.followRedirects <$> heap w' !! l = Some followRedirects
  | Some (url, e) =>
      ∃ w',
        handleModification L (clientAt l) proxyUrl followRedirects w
          = Returns (nilClient, false,
                     Some (Wrapf "failed to change proxy url of client" e)) w'
        ∧ heap w' !! l = Some st
        ∧ tls_client.followRedirects <$> heap w' !! l ≠ Some followRedirects
  end.
Proof.
  intros Hl Hf.
  destruct (proxyChangeRejected L st proxyUrl) as [[url e]|] eqn:Hr.
  - eexists. split; [by eapply handleModification_rejected|].
    simpl. rewrite Hl. split; [done|]. simpl. congruence.
  - destruct (handleModification_accepted L l st proxyUrl followRedirects w Hl Hr)
      as (w' & Hrun & _ & Hh & _).
    exists w'. split.
    + rewrite Hrun. unfold modificationChanged.
      rewrite (bool_decide_eq_true_2 (_ ≠ followRedirects)); [|done].
      by rewrite orb_true_r.
    + rewrite Hh, list_lookup_insert_eq; [done|by eapply lookup_lt_Some].
Qed.
End Sessions.

Section ReuseInvariant.
Context (L : Library).

(** C8: on a call for a session with a live client that supplies no
    proxy, or the client's current proxy, the call returns the
    session's handle without error; afterwards the client has the
    requested follow-redirects flag and, as before, its proxy, its
    profile, its timeout and its verification setting; the other
    clients and the registry are as before, and nothing was resolved
    or constructed.  For any proxy the profile of the session's
    client is as before and nothing is resolved or constructed; and
    no call at all, for any session, changes the profile of a client
    that exists. *)
Theorem C8_redirect_change_frame ri uuid sid l st w :
  SessionId ri = Some sid → sid ≠ "" →
  passesValidation ri →
  liveSession w sid l st →
  ((ProxyUrl ri = None ∨ ProxyUrl ri = Some (tls_client.proxyUrl st)) →
   ∃ w',
     GetTlsClientFromInput L ri uuid w = Returns (clientAt l, sid, None) w'
     ∧ heap w' = <[l := tls_client.setFollowRedirects (FollowRedirects ri) st]> (heap w)
     ∧ (∃ st', heap w' !! l = Some st'
               ∧ tls_client.followRedirects st' = FollowRedirects ri
               ∧ tls_client.proxyUrl st' = tls_client.proxyUrl st
               ∧ tls_client.profile st' = tls_client.profile st
               ∧ tls_client.timeout st' = tls_client.timeout st
               ∧ tls_client.insecureSkipVerify st' = tls_client.insecureSkipVerify st)
     ∧ (∀ l', l' ≠ l → heap w' !! l' = heap w !! l')
     ∧ clients w' = clients w)
  ∧ (∃ c e w' st' evs,
       GetTlsClientFromInput L ri uuid w = Returns (c, sid, e) w'
       ∧ heap w' !! l = Some st'
       ∧ tls_client.profile st' = tls_client.profile st
       ∧ trace w' = trace w ++ evs
       ∧ Forall (λ ev, isResolution ev = false) evs)
  ∧ (∀ ri' uuid' w0 l0 st0,
       heap w0 !! l0 = Some st0 →
       ∃ st', heap (finalWorld (GetTlsClientFromInput L ri' uuid' w0)) !! l0 = Some st'
              ∧ tls_client.profile st' = tls_client.profile st0).
Proof.
  intros Hs Hne Hv Hlive.
  pose proof (resolvedSessionId_supplied ri uuid sid Hs Hne) as Hr.
  destruct (GetTlsClientFromInput_live L ri uuid sid l st w Hv Hr Hlive)
    as (c & e & w' & st' & evs & Hrun & [_ Hl'] & Hcl & Hprof & Ht & Hevs & Hcase).
  split; [|split].
  - intros Hproxy.
    assert (proxyChangeRejected L st (ProxyUrl ri) = None) as Hnone.
    { unfold proxyChangeRejected.
      destruct Hproxy as [->| ->]; [done|]. by rewrite decide_True. }
    assert (modified st (ProxyUrl ri) (FollowRedirects ri)
            = tls_client.setFollowRedirects (FollowRedirects ri) st) as Hmod.
    { unfold modified. by destruct Hproxy as [->| ->]. }
    rewrite Hnone in Hcase. destruct Hcase as (-> & -> & Hst' & Hh).
    rewrite Hmod in Hst'. subst st'.
    exists w'. split; [done|]. split; [done|]. split; [|split; [|done]].
    + eexists. split; [exact Hl'|]. done.
    + intros l' Hl'ne. rewrite Hh. by apply list_lookup_insert_ne.
  - by exists c, e, w', st', evs.
  - intros ri' uuid' w0 l0 st0. apply GetTlsClientFromInput_profiles.
Qed.
End ReuseInvariant.

(** ** The properties on concrete runs *)

Section Runs.
Import Demo.

Lemma named_passesValidation sessionId proxy follow :
  passesValidation (named sessionId proxy follow).
Proof. split; intros [H1 H2]; simpl in *; congruence. Qed.

(** C1: a first call for session [s] with a proxy URL that the client
    constructor rejects returns an error, and yet the registry, which
    had no entry for [s], now holds a nil handle under [s]; the next
    call for [s] panics on that nil handle. *)
Theorem C1_failed_construction_leaves_nil_entry :
  clients emptyWorld !! "s" = None
  ∧ ∃ e w',
      GetTlsClientFromInput lib (named (Some "s") (Some "://bad") true)
                            "uuid-1" emptyWorld
        = Returns (nilClient, "s", Some e) w'
      ∧ clients w' !! "s" = Some nilClient
      ∧ clients w' ≠ clients emptyWorld
      ∧ ∃ w'',
          GetTlsClientFromInput lib (named (Some "s") None true) "uuid-2" w'
            = Panics w''.
Proof.
  split; [done|]. eexists _, _. split; [vm_compute; reflexivity|].
  split; [vm_compute; reflexivity|]. split.
  - intros Heq.
    assert (clients emptyWorld !! "s" = Some nilClient) as Habs;
      [by rewrite <- Heq|]. done.
  - eexists. vm_compute. reflexivity.
Qed.

(** The claim C2 as stated fails: on the one-client world, a request to
    stop following redirects that also supplies a proxy the client
    rejects returns an error, and the flag is not flipped. *)
Lemma C2_counterexample : ¬ C2_as_stated lib.
Proof.
  intros H.
  assert (tls_client.followRedirects
            <$> heap (finalWorld (handleModification lib (clientAt 0)
                                    (Some "://bad") false oneClient)) !! 0
          = Some false) as Hflag.
  { apply (H oneClient 0 client0 (Some "://bad") false); [reflexivity|].
    simpl. discriminate. }
  vm_compute in Hflag. discriminate Hflag.
Qed.

Lemma C2_witness :
  ∃ w',
    handleModification lib (clientAt 0) (Some "http://proxy:8080") false oneClient
      = Returns (clientAt 0, true, None) w'
    ∧ tls_client.followRedirects <$> heap w' !! 0 = Some false.
Proof.
  apply (C2_flag_flipped_unless_proxy_rejected lib 0 client0
           (Some "http://proxy:8080") false oneClient).
  - reflexivity.
  - simpl. discriminate.
Defined.

Lemma C4_witness :
  ∃ e,
    GetTlsClientFromInput lib (bare (Some "s")) "u1" oneClient
      = Returns (nilClient, "s", Some e) oneClient
    ∧ isValidationError e = true
    ∧ clients (finalWorld (GetTlsClientFromInput lib (bare (Some "s")) "u1" oneClient))
      = clients oneClient
    ∧ filter (λ ev, isRegistryAccess ev = true)
             (trace (finalWorld (GetTlsClientFromInput lib (bare (Some "s")) "u1"
                                   oneClient)))
      = filter (λ ev, isRegistryAccess ev = true) (trace oneClient).
Proof.
  apply (C4_both_or_neither_is_validation_error lib (bare (Some "s")) "u1" oneClient).
  right. split; reflexivity.
Defined.

Lemma C5_witness :
  ∃ clientHelloId h2Settings priorityFrames,
    getCustomTlsClientProfile lib custom =
      (clientHelloId, h2Settings, [2; 4; 1]%Z, [":method"; ":path"],
       15663105%Z, priorityFrames, None)
    ∧ Forall2 samePriority (PriorityFrames_ custom) priorityFrames.
Proof.
  destruct (C5_custom_profile_preserves_order lib custom eq_refl)
    as (hello & h2 & prios & Hrun & _ & _ & Hprios).
  exists hello, h2, prios. split; [exact Hrun|exact Hprios].
Defined.

(** The settings order [2; 4; 1] comes out as [2; 4; 1]. *)
Example settings_order_2_4_1 :
  getCustomTlsClientProfile lib custom
  = ({| tls.Client := "Custom"; tls.Version := "1"; tls.Seed := None;
        tls.Factory := Some (tls.specFactoryOf "771,4865-4866,0-23,29-23,0") |},
     {[ 1%Z := 65536%Z ]}, [2; 4; 1]%Z, [":method"; ":path"], 15663105%Z,
     [ {| http2.StreamID := 3%Z;
          http2.Param := {| http2.StreamDep := 0%Z; http2.Exclusive := false;
                            http2.Weight := 200%Z |} |} ], None).
Proof. vm_compute. reflexivity. Qed.

Lemma C6_witness :
  ∃ r w',
    BuildResponse lib "s" (response ("ok", None)) [cookie "a" "1"; cookie "b" "2"]
                  emptyWorld = Returns (r, None) w'
    ∧ size (resp.Cookies r) = 2
    ∧ resp.Cookies r !! "b" = Some "b=2; Path=/".
Proof.
  destruct (C6_cookie_mapping lib "s" (response ("ok", None))
              [cookie "a" "1"; cookie "b" "2"] "ok" emptyWorld eq_refl)
    as (r & w' & Hrun & _ & Hsize & Hlast).
  exists r, w'. split; [exact Hrun|]. split; [exact Hsize|].
  apply (Hlast [cookie "a" "1"] (cookie "b" "2") []); [reflexivity|constructor].
Defined.

(** Two cookies named [a] and [b] give two keys; two cookies both
    named [a] give one key, which holds the string of the second. *)
Example cookies_a_b :
  dom (cookiesToMap lib [cookie "a" "1"; cookie "b" "2"]) = {[ "a"; "b" ]}
  ∧ size (cookiesToMap lib [cookie "a" "1"; cookie "b" "2"]) = 2.
Proof.
  split; [|by rewrite cookiesToMap_size].
  rewrite cookiesToMap_dom. simpl. set_solver.
Qed.

Example cookies_a_a :
  size (cookiesToMap lib [cookie "a" "1"; cookie "a" "2"]) = 1
  ∧ cookiesToMap lib [cookie "a" "1"; cookie "a" "2"] !! "a" = Some "a=2; Path=/".
Proof.
  split; [by rewrite cookiesToMap_size|].
  by apply (cookiesToMap_last lib [cookie "a" "1"] (cookie "a" "2") []).
Qed.

Lemma C8_witness :
  ∃ w',
    GetTlsClientFromInput lib (named (Some "s") None false) "u1" oneClient
      = Returns (clientAt 0, "s", None) w'
    ∧ heap w' = [tls_client.setFollowRedirects false client0]
    ∧ clients w' = clients oneClient.
Proof.
  destruct (C8_redirect_change_frame lib (named (Some "s") None false) "u1" "s"
              0 client0 oneClient) as [Hframe _].
  - reflexivity.
  - discriminate.
  - apply named_passesValidation.
  - split; reflexivity.
  - destruct (Hframe (or_introl eq_refl)) as (w' & Hrun & Hh & _ & _ & Hcl).
    exists w'. split; [exact Hrun|]. split; [exact Hh|exact Hcl].
Defined.

Lemma C9_witness :
  ∃ c sid e w',
    GetTlsClientFromInput lib (named (Some "") None true) "uuid-1" emptyWorld
      = Returns (c, sid, e) w'
    ∧ sid = "uuid-1" ∧ sid ≠ "".
Proof.
  destruct (C9_returned_session_id lib (named (Some "") None true) "uuid-1"
              emptyWorld) as [Hall Hret].
  - discriminate.
  - destruct (Hret (or_introl eq_refl)) as (c & sid & e & w' & Hrun).
    exists c, sid, e, w'. split; [exact Hrun|].
    destruct (Hall c sid e w' Hrun) as (_ & Hgen & Hne).
    split; [apply Hgen; by right|exact Hne].
Defined.

Lemma C10_witness :
  ∃ w',
    BuildResponse lib "s" (response ("partial", Some (External "unexpected EOF")))
                  [cookie "a" "1"] emptyWorld
      = Returns (resp.zero, Some (NewTLSClientError (External "unexpected EOF"))) w'.
Proof.
  destruct (C10_BuildResponse_error_is_zero lib "s"
              (response ("partial", Some (External "unexpected EOF")))
              [cookie "a" "1"] emptyWorld) as [Hfail _].
  apply (Hfail "partial" (External "unexpected EOF")). reflexivity.
Defined.

(** [BuildRequest] on a body without a content type, and with one. *)
Example body_needs_content_type :
  let input headers :=
    {| SessionId := None; TLSClientIdentifier := "chrome_105";
       CustomTlsClient_ := None; ProxyUrl := None; FollowRedirects := true;
       TimeoutSeconds := 0%Z; InsecureSkipVerify := false;
       RequestMethod := "POST"; RequestUrl := "https://example.com";
       RequestBody := Some "{}"; Headers := headers; HeaderOrder := [] |} in
  (∃ e, BuildRequest lib (input ∅) emptyWorld = Returns (None, Some e) emptyWorld
        ∧ isValidationError e = true)
  ∧ (∃ req w', BuildRequest lib (input {[ "Content-Type" := "application/json" ]})
                 emptyWorld = Returns (Some req, None) w'
               ∧ http.ReqHeader req !! "Content-Type" = Some ["application/json"]).
Proof.
  split.
  - eexists. split; [vm_compute; reflexivity|reflexivity].
  - eexists _, _. split; [vm_compute; reflexivity|]. vm_compute. reflexivity.
Qed.
End Runs.

(** ** Further properties: request and response translation *)

Section MoreTranslators.
Context (L : Library).

Lemma headers_loop (headers : gmap string string) :
  map_fold (λ key value (acc : gmap string (list string)), <[key := [value]]> acc)
           ∅ headers
  = (λ value, [value]) <$> headers.
Proof.
  induction headers as [|key value headers Hkey IH] using map_ind.
  - by rewrite map_fold_empty, fmap_empty.
  - rewrite map_fold_insert_L; [|intros; by apply insert_insert_ne|done].
    by rewrite IH, fmap_insert.
Qed.

Lemma BuildRequest_checked input w :
  RequestMethod input ≠ "" → RequestUrl input ≠ "" →
  (effectiveBody input = None
   ∨ is_Some (Headers input !! "content-type")
   ∨ is_Some (Headers input !! "Content-Type")) →
  BuildRequest L input w =
    bind (NewRequest L (RequestMethod input) (RequestUrl input) (effectiveBody input))
         (finishRequest L input) w.
Proof.
  intros Hm Hu Hbody. unfold BuildRequest, effectiveBody in *.
  rewrite decide_False; [|by intros [?|?]].
  destruct (RequestBody input) as [body|]; [|done].
  destruct (decide (body = "")) as [->|Hne]; [done|].
  destruct Hbody as [?|[[v1 H1]|[v2 H2]]]; [done|by rewrite H1|rewrite H2].
  by destruct (Headers input !! "content-type").
Qed.

(** X1: a request that passes the checks and that [http.NewRequest]
    accepts comes back without error; its header map has, under every
    supplied header name other than the header-order key, the
    one-element list of the supplied value, under the header-order key
    the header order of the input (which replaces a supplied header of
    that name), and no other key; a body that is the empty string is
    handed to [http.NewRequest] as no body. *)
Theorem X1_BuildRequest_headers input w :
  RequestMethod input ≠ "" → RequestUrl input ≠ "" →
  (effectiveBody input = None
   ∨ is_Some (Headers input !! "content-type")
   ∨ is_Some (Headers input !! "Content-Type")) →
  request_check L (RequestMethod input) (RequestUrl input) = None →
  ∃ req,
    BuildRequest L input w =
      Returns (Some req, None)
              (logEvent (EvNewRequest (RequestMethod input) (RequestUrl input)
                           (effectiveBody input)) w)
    ∧ http.ReqHeader req !! HeaderOrderKey L = Some (HeaderOrder input)
    ∧ (∀ key, key ≠ HeaderOrderKey L →
              http.ReqHeader req !! key
              = (λ value, [value]) <$> (Headers input !! key))
    ∧ dom (http.ReqHeader req) = {[ HeaderOrderKey L ]} ∪ dom (Headers input)
    ∧ http.ReqBody req = effectiveBody input.
Proof.
  intros Hm Hu Hbody Hcheck. rewrite BuildRequest_checked; [|done..].
  unfold bind, NewRequest, emit, ret, finishRequest. rewrite Hcheck. simpl.
  eexists. split; [reflexivity|]. simpl. rewrite headers_loop.
  split; [by rewrite lookup_insert_eq|]. split; [|split; [|done]].
  - intros key Hkey. rewrite lookup_insert_ne; [|done]. by rewrite lookup_fmap.
  - by rewrite dom_insert_L, dom_fmap_L.
Qed.

(** X2: when the request passes the checks and [http.NewRequest]
    fails, [BuildRequest] returns no request and that error wrapped as
    a failure to create the request object, which is not a validation
    error. *)
Theorem X2_BuildRequest_NewRequest_error input e w :
  RequestMethod input ≠ "" → RequestUrl input ≠ "" →
  (effectiveBody input = None
   ∨ is_Some (Headers input !! "content-type")
   ∨ is_Some (Headers input !! "Content-Type")) →
  request_check L (RequestMethod input) (RequestUrl input) = Some e →
  BuildRequest L input w =
    Returns (None, Some (NewTLSClientError (Wrapf "failed to create request object" e)))
            (logEvent (EvNewRequest (RequestMethod input) (RequestUrl input)
                         (effectiveBody input)) w)
  ∧ isValidationError (NewTLSClientError (Wrapf "failed to create request object" e))
    = false.
Proof.
  intros Hm Hu Hbody Hcheck. rewrite BuildRequest_checked; [|done..].
  unfold bind, NewRequest, emit, ret, finishRequest. by rewrite Hcheck.
Qed.

(** X3: [BuildResponse] always returns; whether or not draining the
    body fails, it has read the body and then closed it, once each and
    in that order, and has left the registry and the clients alone; on
    success the response carries the session id, status, body and
    headers it was given. *)
Theorem X3_BuildResponse_closes_body sessionId response cookies w :
  ∃ r e w',
    BuildResponse L sessionId response cookies w = Returns (r, e) w'
    ∧ trace w' = trace w ++ [EvReadAll; EvBodyClose]
    ∧ clients w' = clients w ∧ heap w' = heap w
    ∧ (e = None ↔ (http.Body response).2 = None)
    ∧ (e = None →
       resp.SessionId r = sessionId
       ∧ resp.Status r = http.StatusCode response
       ∧ resp.Body r = (http.Body response).1
       ∧ resp.Headers r = http.Header response).
Proof.
  unfold BuildResponse, bind, emit, ret.
  destruct (http.Body response) as [body [err|]]; simpl;
    eexists _, _, _; (split; [reflexivity|]); simpl;
    rewrite <- app_assoc; repeat split; done.
Qed.
End MoreTranslators.

(** ** Further properties: cookies and the custom profile *)

Section MoreProfiles.
Context (L : Library).

Lemma cookies_fold_union cookies (m : gmap string string) :
  fold_left (λ (ret : gmap string string) c,
               <[http.Name c := Cookie_String L c]> ret) cookies m
  = cookiesToMap L cookies ∪ m.
Proof.
  unfold cookiesToMap. revert m.
  induction cookies as [|c cookies IH]; intros m; simpl.
  - by rewrite (left_id_L ∅ (∪)).
  - rewrite IH. rewrite (IH (<[_ := _]> ∅)).
    rewrite <- (assoc_L (∪)). f_equal.
    by rewrite <- insert_union_l, (left_id_L ∅ (∪)).
Qed.

(** X4: the cookie map of a concatenation is the map of the later
    cookies laid over the map of the earlier ones: a later cookie
    replaces an earlier one of the same name, and names that occur only
    on one side keep their entry. *)
Theorem X4_cookiesToMap_app cookies1 cookies2 :
  cookiesToMap L (cookies1 ++ cookies2)
  = cookiesToMap L cookies2 ∪ cookiesToMap L cookies1.
Proof.
  unfold cookiesToMap at 1. rewrite fold_left_app.
  apply cookies_fold_union.
Qed.

Lemma settings_loop (m : gmap Z Z) :
  map_fold (λ key value (acc : gmap Z Z), <[key := value]> acc) ∅ m = m.
Proof.
  induction m as [|key value m Hkey IH] using map_ind.
  - by rewrite map_fold_empty.
  - rewrite map_fold_insert_L; [|intros; by apply insert_insert_ne|done].
    by rewrite IH.
Qed.

(** X5: for a custom definition whose JA3 string parses,
    [getCustomTlsClientProfile] returns the HTTP/2 settings map of the
    input key for key, its connection flow, and a handshake identity
    named Custom, version 1, without seed, whose factory is the one
    parsed from the JA3 string. *)
Theorem X5_custom_profile_settings custom :
  ja3_check L (Ja3String custom) = None →
  ∃ h2SettingsOrder pseudoHeaderOrder priorityFrames,
    getCustomTlsClientProfile L custom =
      ({| tls.Client := "Custom"; tls.Version := "1"; tls.Seed := None;
          tls.Factory := Some (tls.specFactoryOf (Ja3String custom)) |},
       H2Settings custom, h2SettingsOrder, pseudoHeaderOrder,
       ConnectionFlow custom, priorityFrames, None).
Proof.
  intros Hja3. unfold getCustomTlsClientProfile, GetSpecFactorFromJa3String.
  rewrite Hja3, settings_loop. by eexists _, _, _.
Qed.

End MoreProfiles.

(** ** Further properties: the session registry *)

Section MoreRegistry.
Context (L : Library).

(** The five ways a call of [getTlsClient] can go. *)
Lemma getTlsClient_cases ri sid w :
  (∃ c, clients w !! sid = Some c
        ∧ (c = nilClient ∨ ∃ l, c = clientAt l ∧ heap w !! l = None)
        ∧ getTlsClient L ri sid w = Panics (logEvent (EvRegistryLookup sid) w))
  ∨ (∃ l st url e,
        liveSession w sid l st
        ∧ proxyChangeRejected L st (ProxyUrl ri) = Some (url, e)
        ∧ getTlsClient L ri sid w =
            Returns (nilClient,
                     Some (Wrapf "failed to modify existing client"
                             (Wrapf "failed to change proxy url of client" e)))
                    (logEvent (EvSetProxy (clientAt l) url)
                       (logEvent (EvRegistryLookup sid) w)))
  ∨ (∃ l st w',
        liveSession w sid l st
        ∧ proxyChangeRejected L st (ProxyUrl ri) = None
        ∧ getTlsClient L ri sid w = Returns (clientAt l, None) w'
        ∧ clients w' = clients w
        ∧ heap w' = <[l := modified st (ProxyUrl ri) (FollowRedirects ri)]> (heap w)
        ∧ trace w' =
            trace w ++ [EvRegistryLookup sid]
            ++ modificationEvents l st (ProxyUrl ri) (FollowRedirects ri)
            ++ (if modificationChanged st (ProxyUrl ri) (FollowRedirects ri)
                then [EvRegistryStore sid (clientAt l)] else []))
  ∨ (∃ custom e,
        clients w !! sid = None
        ∧ CustomTlsClient_ ri = Some custom
        ∧ ja3_check L (Ja3String custom) = Some e
        ∧ getTlsClient L ri sid w =
            Returns (nilClient,
                     Some (Wrapf "can not build http client out of custom tls client information" e))
                    (logEvent (EvCustomProfile (Ja3String custom))
                       (logEvent (EvRegistryLookup sid) w)))
  ∨ (∃ c err w',
        clients w !! sid = None
        ∧ ja3Rejected L ri = None
        ∧ getTlsClient L ri sid w = Returns (c, err) w'
        ∧ clients w' = <[sid := c]> (clients w)
        ∧ constructions w' = S (constructions w)
        ∧ ((is_Some err ∧ c = nilClient ∧ heap w' = heap w)
           ∨ (err = None ∧ c = clientAt (length (heap w))
              ∧ ∃ st, heap w' = heap w ++ [st]))).
Proof.
  destruct (clients w !! sid) as [c0|] eqn:Hc.
  - destruct c0 as [|l].
    { left. exists nilClient. split; [done|]. split; [by left|].
      eapply getTlsClient_dead; [done|by left]. }
    destruct (heap w !! l) as [st|] eqn:Hl.
    2:{ left. exists (clientAt l). split; [done|]. split; [right; by exists l|].
        eapply getTlsClient_dead; [done|right; by exists l]. }
    destruct (proxyChangeRejected L st (ProxyUrl ri)) as [[url e]|] eqn:Hr.
    + right; left. exists l, st, url, e. split; [done|]. split; [done|].
      by eapply getTlsClient_rejected.
    + right; right; left.
      destruct (getTlsClient_accepted L ri sid l st w (conj Hc Hl) Hr)
        as (w' & Hrun & Hcl & Hh & Ht).
      by exists l, st, w'.
  - destruct (ja3Rejected L ri) as [e|] eqn:Hja3.
    + right; right; right; left. unfold ja3Rejected in Hja3.
      destruct (CustomTlsClient_ ri) as [custom|] eqn:Hcu; [|done].
      exists custom, e. split; [done|]. split; [done|]. split; [done|].
      by eapply getTlsClient_absent_ja3.
    + right; right; right; right.
      destruct (getTlsClient_absent_construct L ri sid w Hc Hja3)
        as (c & err & w' & options & Hrun & Hcl & Hn & _ & Hcase).
      exists c, err, w'. split; [done|]. split; [done|]. split; [done|].
      split; [done|]. split; [done|].
      destruct Hcase as [(e0 & -> & -> & Hh & _)|(-> & -> & Hh)].
      * left. by split; [eexists|].
      * right. split; [done|]. split; [done|]. by eexists.
Qed.

(** Where a call of the entry point ends: where it began, when the
    input fails validation, and where [getTlsClient] ends otherwise. *)
Lemma GetTlsClientFromInput_finalWorld ri uuid w :
  finalWorld (GetTlsClientFromInput L ri uuid w) = w
  ∨ (passesValidation ri
     ∧ finalWorld (GetTlsClientFromInput L ri uuid w)
       = finalWorld (getTlsClient L ri (resolvedSessionId ri uuid) w)).
Proof.
  destruct (decide (TLSClientIdentifier ri ≠ "" ∧ CustomTlsClient_ ri ≠ None))
    as [Hb|Hb].
  { destruct (GetTlsClientFromInput_invalid L ri uuid w (or_introl Hb))
      as (e & -> & _). by left. }
  destruct (decide (TLSClientIdentifier ri = "" ∧ CustomTlsClient_ ri = None))
    as [Hn|Hn].
  { destruct (GetTlsClientFromInput_invalid L ri uuid w (or_intror Hn))
      as (e & -> & _). by left. }
  right. split; [done|]. rewrite GetTlsClientFromInput_valid; [|done].
  apply finalWorld_bind_pure. by intros [c [e|]] w'.
Qed.

(** X6: no call removes or replaces an entry of the registry, and a
    call leaves the entries of all session ids other than its own as
    they are. *)
Theorem X6_registry_entries_kept ri uuid w :
  (∀ sessionId c,
      clients w !! sessionId = Some c →
      clients (finalWorld (GetTlsClientFromInput L ri uuid w)) !! sessionId = Some c)
  ∧ (∀ sessionId,
      sessionId ≠ resolvedSessionId ri uuid →
      clients (finalWorld (GetTlsClientFromInput L ri uuid w)) !! sessionId
      = clients w !! sessionId).
Proof.
  destruct (GetTlsClientFromInput_finalWorld ri uuid w) as [->|[_ ->]]; [done|].
  destruct (getTlsClient_cases ri (resolvedSessionId ri uuid) w)
    as [(c & _ & _ & ->)|[(l & st & url & e & _ & _ & ->)
       |[(l & st & w' & _ & _ & -> & Hcl & _)
       |[(custom & e & _ & _ & _ & ->)
       |(c & err & w' & Hab & _ & -> & Hcl & _)]]]]; simpl;
    rewrite ?Hcl; try done.
  split.
  - intros s c' Hs. rewrite lookup_insert_ne; [done|]. intros <-. congruence.
  - intros s Hs. by rewrite lookup_insert_ne.
Qed.

(** X7: a call constructs at most one client, and none when the
    registry already has an entry for its session id; the heap grows by
    at most one object, and it grows only in a call that constructed a
    client. *)
Theorem X7_at_most_one_construction ri uuid w :
  (constructions w ≤ constructions (finalWorld (GetTlsClientFromInput L ri uuid w)))%nat
  ∧ (constructions (finalWorld (GetTlsClientFromInput L ri uuid w))
     ≤ S (constructions w))%nat
  ∧ (is_Some (clients w !! resolvedSessionId ri uuid) →
     constructions (finalWorld (GetTlsClientFromInput L ri uuid w))
     = constructions w)
  ∧ (length (heap w)
     ≤ length (heap (finalWorld (GetTlsClientFromInput L ri uuid w))))%nat
  ∧ (length (heap (finalWorld (GetTlsClientFromInput L ri uuid w)))
     ≠ length (heap w) →
     length (heap (finalWorld (GetTlsClientFromInput L ri uuid w)))
     = S (length (heap w))
     ∧ constructions (finalWorld (GetTlsClientFromInput L ri uuid w))
       = S (constructions w)).
Proof.
  destruct (GetTlsClientFromInput_finalWorld ri uuid w) as [->|[_ ->]];
    [repeat split; (lia || done)|].
  destruct (getTlsClient_cases ri (resolvedSessionId ri uuid) w)
    as [(c & _ & _ & ->)|[(l & st & url & e & _ & _ & ->)
       |[(l & st & w' & _ & _ & -> & _ & Hh & Ht)
       |[(custom & e & Hab & _ & _ & ->)
       |(c & err & w' & Hab & _ & -> & _ & Hn & Hcase)]]]]; simpl finalWorld.
  - assert (constructions (logEvent (EvRegistryLookup (resolvedSessionId ri uuid)) w)
            = constructions w) as ->.
    { eapply constructions_extends; [done|by repeat constructor]. }
    simpl. repeat split; (lia || done).
  - assert (constructions
              (logEvent (EvSetProxy (clientAt l) url)
                 (logEvent (EvRegistryLookup (resolvedSessionId ri uuid)) w))
            = constructions w) as ->.
    { eapply constructions_extends;
        [simpl; by rewrite <- app_assoc|by repeat constructor]. }
    simpl. repeat split; (lia || done).
  - assert (constructions w' = constructions w) as ->.
    { eapply constructions_extends; [exact Ht|].
      apply Forall_app. split; [by repeat constructor|].
      apply Forall_app. split.
      - apply no_resolution_no_construction, modificationEvents_no_resolution.
      - destruct (modificationChanged _ _ _); by repeat constructor. }
    rewrite Hh, length_insert. repeat split; (lia || done).
  - assert (constructions
              (logEvent (EvCustomProfile (Ja3String custom))
                 (logEvent (EvRegistryLookup (resolvedSessionId ri uuid)) w))
            = constructions w) as ->.
    { eapply constructions_extends;
        [simpl; by rewrite <- app_assoc|by repeat constructor]. }
    simpl. repeat split; (lia || done).
  - rewrite Hn, Hab.
    destruct Hcase as [(_ & _ & ->)|(_ & _ & st & ->)].
    + repeat split; try lia; try done; by intros [? ?].
    + rewrite length_app. simpl.
      repeat split; try lia; try done; by intros [? ?].
Qed.
End MoreRegistry.

(** ** Further properties: construction, invariants, repeated calls *)

Section MoreSessions.
Context (L : Library).

Lemma getCustomTlsClientProfile_error custom :
  (getCustomTlsClientProfile L custom).2 = ja3_check L (Ja3String custom).
Proof.
  unfold getCustomTlsClientProfile, GetSpecFactorFromJa3String.
  by destruct (ja3_check L (Ja3String custom)).
Qed.

(** A call for a session id without an entry, once the profile is at
    hand: the constructor is asked for [requestedClient], and its
    answer decides the outcome. *)
Lemma getTlsClient_absent_requested ri sid w :
  clients w !! sid = None →
  ja3Rejected L ri = None →
  ∃ w',
    getTlsClient L ri sid w =
      Returns (match construct_check L (requestedClient L ri) with
               | Some e => (nilClient, Some e)
               | None => (clientAt (length (heap w)), None)
               end) w'
    ∧ heap w' = match construct_check L (requestedClient L ri) with
                | Some e => heap w
                | None => heap w ++ [requestedClient L ri]
                end
    ∧ clients w' =
        <[sid := match construct_check L (requestedClient L ri) with
                 | Some e => nilClient
                 | None => clientAt (length (heap w))
                 end]> (clients w).
Proof.
  intros Hc Hja3. unfold getTlsClient.
  erewrite bind_returns; [|apply lookupClient_run]. rewrite Hc.
  unfold ja3Rejected in Hja3. unfold requestedClient, requestedProfile.
  assert (∀ custom, CustomTlsClient_ ri = Some custom →
            (getCustomTlsClientProfile L custom).2 = None) as Herr.
  { intros custom Hcu. rewrite Hcu in Hja3.
    by rewrite getCustomTlsClientProfile_error. }
  destruct (CustomTlsClient_ ri) as [custom|].
  - specialize (Herr custom eq_refl).
    destruct (getCustomTlsClientProfile L custom)
      as [[[[[[h st] o] p] f] pr] err]. simpl in Herr. subst err.
    unfold bind, ret, emit, NewHttpClient, storeClient, bind, emit.
    destruct (decide (TLSClientIdentifier ri = "")),
             (decide (TimeoutSeconds ri = 0%Z)),
             (FollowRedirects ri), (InsecureSkipVerify ri),
             (ProxyUrl ri) as [proxy|]; simpl;
      try (destruct (decide (proxy = "")) as [->|]; simpl);
      unfold tls_client.setProxyUrl, tls_client.setFollowRedirects; simpl;
      match goal with
      | |- context [construct_check L ?c] => destruct (construct_check L c)
      end; simpl; by eexists.
  - unfold bind, ret, emit, NewHttpClient, storeClient, bind, emit.
    destruct (decide (TLSClientIdentifier ri = "")),
             (decide (TimeoutSeconds ri = 0%Z)),
             (FollowRedirects ri), (InsecureSkipVerify ri),
             (ProxyUrl ri) as [proxy|]; simpl;
      try (destruct (decide (proxy = "")) as [->|]; simpl);
      unfold tls_client.setProxyUrl, tls_client.setFollowRedirects; simpl;
      match goal with
      | |- context [construct_check L ?c] => destruct (construct_check L c)
      end; simpl; by eexists.
Qed.

Lemma getCustomTlsClientProfile_parsed custom :
  ja3_check L (Ja3String custom) = None →
  ∃ priorityFrames,
    getCustomTlsClientProfile L custom =
      ({| tls.Client := "Custom"; tls.Version := "1"; tls.Seed := None;
          tls.Factory := Some (tls.specFactoryOf (Ja3String custom)) |},
       H2Settings custom, H2SettingsOrder custom, PseudoHeaderOrder custom,
       ConnectionFlow custom, priorityFrames, None)
    ∧ Forall2 samePriority (PriorityFrames_ custom) priorityFrames.
Proof.
  intros Hja3. unfold getCustomTlsClientProfile, GetSpecFactorFromJa3String.
  rewrite Hja3, settings_loop.
  rewrite (append_loop (λ x : Z, x)), list_fmap_id. simpl "++".
  rewrite (append_loop
             (λ priority, {| http2.StreamID := StreamID priority;
                             http2.Param := _ |})).
  eexists. split; [reflexivity|].
  simpl. apply Forall2_fmap_r, Forall_Forall2_diag, Forall_forall.
  intros p _. by unfold samePriority.
Qed.

(** The profile of a new client, read off the input. *)
Lemma requestedProfile_named ri :
  TLSClientIdentifier ri ≠ "" →
  requestedProfile L ri =
    match MappedTLSClients L !! TLSClientIdentifier ri with
    | Some catalogued => catalogued
    | None => DefaultClientProfile L
    end.
Proof.
  intros Hid. unfold requestedProfile, getTlsClientProfile.
  rewrite decide_False; [|done].
  by destruct (MappedTLSClients L !! TLSClientIdentifier ri).
Qed.

Lemma requestedProfile_custom ri custom :
  TLSClientIdentifier ri = "" →
  CustomTlsClient_ ri = Some custom →
  ja3_check L (Ja3String custom) = None →
  tls_client.clientHelloId (requestedProfile L ri)
  = {| tls.Client := "Custom"; tls.Version := "1"; tls.Seed := None;
       tls.Factory := Some (tls.specFactoryOf (Ja3String custom)) |}
  ∧ tls_client.settings (requestedProfile L ri) = H2Settings custom
  ∧ tls_client.settingsOrder (requestedProfile L ri) = H2SettingsOrder custom
  ∧ tls_client.pseudoHeaderOrder (requestedProfile L ri) = PseudoHeaderOrder custom
  ∧ tls_client.connectionFlow (requestedProfile L ri) = ConnectionFlow custom
  ∧ Forall2 samePriority (PriorityFrames_ custom)
            (tls_client.priorities (requestedProfile L ri)).
Proof.
  intros Hid Hcu Hja3. unfold requestedProfile.
  rewrite decide_True; [|done]. rewrite Hcu.
  destruct (getCustomTlsClientProfile_parsed custom Hja3) as (prios & -> & Hprios).
  by simpl.
Qed.

(** A call for a session id without an entry, once the profile is at
    hand, in the order of its steps: the registry lookup, the
    resolution of the profile, one call of the constructor with the
    options of lines 150-167, and the store of what the constructor
    returned. *)
Lemma getTlsClient_absent_trace ri sid w :
  clients w !! sid = None →
  ja3Rejected L ri = None →
  ∃ c err w',
    getTlsClient L ri sid w = Returns (c, err) w'
    ∧ clients w' = <[sid := c]> (clients w)
    ∧ (is_Some err → c = nilClient ∧ heap w' = heap w)
    ∧ (err = None →
       c = clientAt (length (heap w)) ∧ length (heap w') = S (length (heap w)))
    ∧ trace w' =
        trace w ++ [EvRegistryLookup sid]
        ++ match CustomTlsClient_ ri with
           | Some custom => [EvCustomProfile (Ja3String custom)]
           | None => []
           end
        ++ (if decide (TLSClientIdentifier ri = "") then []
            else [EvNamedProfile (TLSClientIdentifier ri)])
        ++ [EvNewHttpClient
              ([tls_client.WithTimeout
                  (if decide (TimeoutSeconds ri = 0%Z) then DefaultTimeoutSeconds L
                   else TimeoutSeconds ri);
                tls_client.WithClientProfile (requestedProfile L ri)]
               ++ (if FollowRedirects ri then []
                   else [tls_client.WithNotFollowRedirects])
               ++ (if InsecureSkipVerify ri then [tls_client.WithInsecureSkipVerify]
                   else [])
               ++ match ProxyUrl ri with
                  | Some proxy =>
                      if decide (proxy = "") then []
                      else [tls_client.WithProxyUrl proxy]
                  | None => []
                  end);
            EvRegistryStore sid c].
Proof.
  intros Hc Hja3. unfold getTlsClient.
  erewrite bind_returns; [|apply lookupClient_run]. rewrite Hc.
  unfold ja3Rejected in Hja3. unfold requestedProfile.
  assert (∀ custom, CustomTlsClient_ ri = Some custom →
            (getCustomTlsClientProfile L custom).2 = None) as Herr.
  { intros custom Hcu. rewrite Hcu in Hja3.
    by rewrite getCustomTlsClientProfile_error. }
  destruct (CustomTlsClient_ ri) as [custom|].
  - specialize (Herr custom eq_refl).
    destruct (getCustomTlsClientProfile L custom)
      as [[[[[[h st] o] p] f] pr] err]. simpl in Herr. subst err.
    unfold bind, ret, emit, NewHttpClient, storeClient, bind, emit.
    destruct (decide (TLSClientIdentifier ri = "")),
             (decide (TimeoutSeconds ri = 0%Z)),
             (FollowRedirects ri), (InsecureSkipVerify ri),
             (ProxyUrl ri) as [proxy|]; simpl;
      try (destruct (decide (proxy = "")) as [->|]; simpl);
      match goal with
      | |- context [construct_check L ?c] => destruct (construct_check L c)
      end; simpl;
      (eexists _, _, _; split; [reflexivity|]; split; [done|]; simpl;
       split; [by intros [? ?]|]; split; [by rewrite ?length_app; simpl; intros; (done || (split; [done|lia]))|];
       rewrite <- !app_assoc; reflexivity).
  - unfold bind, ret, emit, NewHttpClient, storeClient, bind, emit.
    destruct (decide (TLSClientIdentifier ri = "")),
             (decide (TimeoutSeconds ri = 0%Z)),
             (FollowRedirects ri), (InsecureSkipVerify ri),
             (ProxyUrl ri) as [proxy|]; simpl;
      try (destruct (decide (proxy = "")) as [->|]; simpl);
      match goal with
      | |- context [construct_check L ?c] => destruct (construct_check L c)
      end; simpl;
      (eexists _, _, _; split; [reflexivity|]; split; [done|]; simpl;
       split; [by intros [? ?]|]; split; [by rewrite ?length_app; simpl; intros; (done || (split; [done|lia]))|];
       rewrite <- !app_assoc; reflexivity).
Qed.

(** X8: a first call for a session id, with an input that passes
    validation and a JA3 string (if any) that parses, looks the id up,
    resolves the profile, calls the client constructor exactly once and
    stores the handle it gets under the session id.  The constructor
    receives, in this order: the timeout option with the requested
    number of seconds, or the default number when that is 0; the
    profile option; the no-redirects option exactly when
    follow-redirects is off; the skip-verification option exactly when
    that flag is on; the proxy option exactly when a proxy other than
    the empty string is supplied.  For an identifier the profile is the
    catalog's entry for it, or the default profile when the catalog has
    none; for a custom definition it carries the handshake identity
    Custom/1 with the parsed factory and the definition's settings,
    orders, flow and priority frames.  When the call returns no error
    its handle is a new object. *)
Theorem X8_new_client_configuration ri uuid w :
  passesValidation ri →
  clients w !! resolvedSessionId ri uuid = None →
  ja3Rejected L ri = None →
  ∃ profile c e w',
    GetTlsClientFromInput L ri uuid w
      = Returns (c, resolvedSessionId ri uuid, e) w'
    ∧ clients w' = <[resolvedSessionId ri uuid := c]> (clients w)
    ∧ (e = None →
       c = clientAt (length (heap w)) ∧ length (heap w') = S (length (heap w)))
    ∧ trace w' =
        trace w ++ [EvRegistryLookup (resolvedSessionId ri uuid)]
        ++ match CustomTlsClient_ ri with
           | Some custom => [EvCustomProfile (Ja3String custom)]
           | None => []
           end
        ++ (if decide (TLSClientIdentifier ri = "") then []
            else [EvNamedProfile (TLSClientIdentifier ri)])
        ++ [EvNewHttpClient
              ([tls_client.WithTimeout
                  (if decide (TimeoutSeconds ri = 0%Z) then DefaultTimeoutSeconds L
                   else TimeoutSeconds ri);
                tls_client.WithClientProfile profile]
               ++ (if FollowRedirects ri then []
                   else [tls_client.WithNotFollowRedirects])
               ++ (if InsecureSkipVerify ri then [tls_client.WithInsecureSkipVerify]
                   else [])
               ++ match ProxyUrl ri with
                  | Some proxy =>
                      if decide (proxy = "") then []
                      else [tls_client.WithProxyUrl proxy]
                  | None => []
                  end);
            EvRegistryStore (resolvedSessionId ri uuid) c]
    ∧ (TLSClientIdentifier ri ≠ "" →
       profile = match MappedTLSClients L !! TLSClientIdentifier ri with
                 | Some catalogued => catalogued
                 | None => DefaultClientProfile L
                 end)
    ∧ (∀ custom,
         CustomTlsClient_ ri = Some custom →
         tls_client.clientHelloId profile
         = {| tls.Client := "Custom"; tls.Version := "1"; tls.Seed := None;
              tls.Factory := Some (tls.specFactoryOf (Ja3String custom)) |}
         ∧ tls_client.settings profile = H2Settings custom
         ∧ tls_client.settingsOrder profile = H2SettingsOrder custom
         ∧ tls_client.pseudoHeaderOrder profile = PseudoHeaderOrder custom
         ∧ tls_client.connectionFlow profile = ConnectionFlow custom
         ∧ Forall2 samePriority (PriorityFrames_ custom)
                   (tls_client.priorities profile)).
Proof.
  intros Hv Hc Hja3. rewrite GetTlsClientFromInput_valid; [|done].
  destruct (getTlsClient_absent_trace ri _ w Hc Hja3)
    as (c & err & w' & Hrun & Hcl & Herr & Hok & Ht).
  erewrite bind_returns; [|exact Hrun].
  exists (requestedProfile L ri).
  assert (∀ custom, CustomTlsClient_ ri = Some custom →
            TLSClientIdentifier ri = "" ∧ ja3_check L (Ja3String custom) = None)
    as Hcustom.
  { intros custom Hcu. split.
    - destruct Hv as [Hboth _].
      destruct (decide (TLSClientIdentifier ri = "")) as [|Hid]; [done|].
      destruct Hboth. split; [done|]. by rewrite Hcu.
    - unfold ja3Rejected in Hja3. by rewrite Hcu in Hja3. }
  destruct err as [e0|].
  - destruct (Herr (mk_is_Some _ _ eq_refl)) as [-> _].
    eexists _, _, w'. split; [reflexivity|]. split; [done|].
    split; [done|]. split; [exact Ht|]. split.
    + apply requestedProfile_named.
    + intros custom Hcu. destruct (Hcustom custom Hcu).
      by apply requestedProfile_custom.
  - eexists _, _, w'. split; [reflexivity|]. split; [done|].
    split; [intros _; by apply Hok|]. split; [exact Ht|]. split.
    + apply requestedProfile_named.
    + intros custom Hcu. destruct (Hcustom custom Hcu).
      by apply requestedProfile_custom.
Qed.

(** X9: a first call for a session id with a custom definition whose
    JA3 string does not parse returns a nil handle and the parser's
    error, wrapped twice; nothing is constructed, and the registry and
    the heap are as before, so the session id still has no entry. *)
Theorem X9_ja3_error_leaves_registry ri uuid custom e w :
  passesValidation ri →
  clients w !! resolvedSessionId ri uuid = None →
  CustomTlsClient_ ri = Some custom →
  ja3_check L (Ja3String custom) = Some e →
  ∃ w',
    GetTlsClientFromInput L ri uuid w
      = Returns (nilClient, resolvedSessionId ri uuid,
                 Some (NewTLSClientError
                         (Wrapf "failed to build client out of request input"
                            (Wrapf "can not build http client out of custom tls client information" e))))
                w'
    ∧ clients w' = clients w ∧ heap w' = heap w
    ∧ constructions w' = constructions w.
Proof.
  intros Hv Hc Hcu Hja3. rewrite GetTlsClientFromInput_valid; [|done].
  erewrite bind_returns; [|by eapply getTlsClient_absent_ja3].
  eexists. split; [reflexivity|]. split; [done|]. split; [done|].
  eapply constructions_extends;
    [simpl; by rewrite <- app_assoc|by repeat constructor].
Qed.

(** What a call that returned has returned. *)
Lemma GetTlsClientFromInput_outcome ri uuid w c sid e w' :
  GetTlsClientFromInput L ri uuid w = Returns (c, sid, e) w' →
  (is_Some e → c = nilClient)
  ∧ (e = None →
     passesValidation ri
     ∧ ∃ l st,
         c = clientAt l ∧ liveSession w' sid l st
         ∧ tls_client.followRedirects st = FollowRedirects ri
         ∧ (∀ proxy, ProxyUrl ri = Some proxy → proxy ≠ "" →
                     tls_client.proxyUrl st = proxy)).
Proof.
  intros Hrun.
  pose proof (GetTlsClientFromInput_sessionId L ri uuid w c sid e w' Hrun) as ->.
  destruct (decide (TLSClientIdentifier ri ≠ "" ∧ CustomTlsClient_ ri ≠ None))
    as [Hb|Hb].
  { destruct (GetTlsClientFromInput_invalid L ri uuid w (or_introl Hb))
      as (e0 & Hrun0 & _). rewrite Hrun0 in Hrun.
    injection Hrun as <- <- <-. by split. }
  destruct (decide (TLSClientIdentifier ri = "" ∧ CustomTlsClient_ ri = None))
    as [Hn|Hn].
  { destruct (GetTlsClientFromInput_invalid L ri uuid w (or_intror Hn))
      as (e0 & Hrun0 & _). rewrite Hrun0 in Hrun.
    injection Hrun as <- <- <-. by split. }
  rewrite GetTlsClientFromInput_valid in Hrun; [|done].
  destruct (getTlsClient_cases L ri (resolvedSessionId ri uuid) w)
    as [(c0 & _ & _ & Hrun0)|[(l & st & url & e0 & _ & _ & Hrun0)
       |[(l & st & w1 & [Hreg Hl] & _ & Hrun0 & Hcl & Hh & _)
       |[(custom & e0 & _ & _ & _ & Hrun0)
       |(c0 & err & w1 & Hab & Hja3 & _)]]]].
  - by erewrite bind_panics in Hrun.
  - erewrite bind_returns in Hrun; [|exact Hrun0].
    injection Hrun as <- <- <-. by split.
  - erewrite bind_returns in Hrun; [|exact Hrun0].
    injection Hrun as <- <- <-. split; [by intros [? ?]|]. intros _.
    split; [done|].
    exists l, (modified st (ProxyUrl ri) (FollowRedirects ri)).
    split; [done|]. split; [|split; [done|]].
    + split; [by rewrite Hcl|]. rewrite Hh.
      apply list_lookup_insert_eq. by eapply lookup_lt_Some.
    + intros proxy Hp _. unfold modified. simpl. by rewrite Hp.
  - erewrite bind_returns in Hrun; [|exact Hrun0].
    injection Hrun as <- <- <-. by split.
  - destruct (getTlsClient_absent_requested ri _ w Hab Hja3)
      as (w2 & Hrun2 & Hh & Hcl).
    erewrite bind_returns in Hrun; [|exact Hrun2].
    destruct (construct_check L (requestedClient L ri)) as [e0|].
    + injection Hrun as <- <- <-. by split.
    + injection Hrun as <- <- <-. split; [by intros [? ?]|]. intros _.
      split; [done|].
      exists (length (heap w)), (requestedClient L ri).
      split; [done|]. split; [|split; [done|]].
      * split; [rewrite Hcl; by apply lookup_insert_eq|].
        rewrite Hh. by apply list_lookup_middle.
      * intros proxy Hp _. unfold requestedClient. simpl. by rewrite Hp.
Qed.


(** X10: a call that returns an error returns a nil handle; a call
    that returns no error returns a handle that is not nil, is the
    registry's entry for the returned session id, and points to a
    client with the requested follow-redirects flag and, when a proxy
    other than the empty string was supplied, that proxy. *)
Theorem X10_handle_or_error ri uuid w c sid e w' :
  GetTlsClientFromInput L ri uuid w = Returns (c, sid, e) w' →
  (is_Some e → c = nilClient)
  ∧ (e = None →
     ∃ l st,
       c = clientAt l ∧ liveSession w' sid l st
       ∧ tls_client.followRedirects st = FollowRedirects ri
       ∧ (∀ proxy, ProxyUrl ri = Some proxy → proxy ≠ "" →
                   tls_client.proxyUrl st = proxy)).
Proof.
  intros Hrun.
  destruct (GetTlsClientFromInput_outcome ri uuid w c sid e w' Hrun) as [Herr Hok].
  split; [done|]. intros He. by destruct (Hok He) as [_ ?].
Qed.

(** X11: for a session id that has an entry, the outcome of a call
    depends on the input only through the proxy and the
    follow-redirects flag: two inputs that pass validation and agree
    on these two fields and on the session id have the same outcome,
    whatever their identifier, custom definition, timeout and
    verification flag. *)
Theorem X11_existing_session_ignores_rest ri1 ri2 uuid1 uuid2 w :
  passesValidation ri1 → passesValidation ri2 →
  resolvedSessionId ri1 uuid1 = resolvedSessionId ri2 uuid2 →
  is_Some (clients w !! resolvedSessionId ri1 uuid1) →
  ProxyUrl ri1 = ProxyUrl ri2 →
  FollowRedirects ri1 = FollowRedirects ri2 →
  GetTlsClientFromInput L ri1 uuid1 w = GetTlsClientFromInput L ri2 uuid2 w.
Proof.
  intros Hv1 Hv2 Hsid [c Hc] Hproxy Hfollow.
  rewrite !GetTlsClientFromInput_valid; [|done..]. rewrite <- Hsid.
  assert (getTlsClient L ri1 (resolvedSessionId ri1 uuid1) w
          = getTlsClient L ri2 (resolvedSessionId ri1 uuid1) w) as Heq.
  { unfold getTlsClient.
    erewrite !bind_returns; [|apply lookupClient_run..].
    rewrite Hc. by rewrite Hproxy, Hfollow. }
  unfold bind. by rewrite Heq.
Qed.

Lemma modified_fixpoint st proxy follow :
  tls_client.followRedirects st = follow →
  (∀ url, proxy = Some url → tls_client.proxyUrl st = url) →
  proxyChangeRejected L st proxy = None
  ∧ modified st proxy follow = st
  ∧ (∀ l, modificationEvents l st proxy follow = [])
  ∧ modificationChanged st proxy follow = false.
Proof.
  intros Hf Hp.
  assert (tls_client.proxyUrl st = proxyAfter st proxy) as Hafter.
  { destruct proxy as [url|]; [by apply Hp|done]. }
  split; [|split; [|split]].
  - unfold proxyChangeRejected. destruct proxy as [url|]; [|done].
    rewrite decide_True; [done|by apply Hp].
  - unfold modified. rewrite <- Hafter. destruct st; simpl in *; by subst.
  - intros l. unfold modificationEvents. by rewrite !decide_True.
  - unfold modificationChanged.
    rewrite !bool_decide_eq_false_2; [done|by intros []..].
Qed.

(** X12: repeating a call changes nothing: when a call with a
    supplied, non-empty session id returned without error and its
    proxy, if supplied, is not the empty string, the same input again
    returns the same handle without error and leaves the registry and
    every client as they are; it only looks the session up. *)
Theorem X12_repeated_call_is_idempotent ri uuid1 uuid2 sid w c w1 :
  SessionId ri = Some sid → sid ≠ "" →
  ProxyUrl ri ≠ Some "" →
  GetTlsClientFromInput L ri uuid1 w = Returns (c, sid, None) w1 →
  ∃ w2,
    GetTlsClientFromInput L ri uuid2 w1 = Returns (c, sid, None) w2
    ∧ clients w2 = clients w1 ∧ heap w2 = heap w1
    ∧ trace w2 = trace w1 ++ [EvRegistryLookup sid].
Proof.
  intros Hs Hne Hproxy Hrun.
  destruct (GetTlsClientFromInput_outcome ri uuid1 w c sid None w1 Hrun)
    as [_ Hok].
  destruct (Hok eq_refl) as (Hv & l & st & -> & Hlive & Hf & Hp).
  pose proof (resolvedSessionId_supplied ri uuid2 sid Hs Hne) as Hr2.
  destruct (modified_fixpoint st (ProxyUrl ri) (FollowRedirects ri) Hf)
    as (Hrej & Hmod & Hevs & Hch).
  { intros url Hurl. apply Hp; [done|]. intros ->. by rewrite Hurl in Hproxy. }
  destruct (getTlsClient_accepted L ri sid l st w1 Hlive Hrej)
    as (w2 & Hrun2 & Hcl & Hh & Ht).
  rewrite GetTlsClientFromInput_valid; [|done]. rewrite Hr2.
  erewrite bind_returns; [|exact Hrun2].
  exists w2. split; [done|]. split; [done|]. split.
  - rewrite Hh, Hmod. apply list_insert_id. by destruct Hlive.
  - rewrite Ht, Hevs, Hch. by rewrite app_nil_r.
Qed.
End MoreSessions.

(** ** Further properties: the registry invariant *)

Section RegistryInvariant.
Context (L : Library).

Lemma invariant_step ri uuid w :
  wellFormed w → distinctClients w →
  wellFormed (finalWorld (GetTlsClientFromInput L ri uuid w))
  ∧ distinctClients (finalWorld (GetTlsClientFromInput L ri uuid w)).
Proof.
  intros Hwf Hdist.
  destruct (GetTlsClientFromInput_finalWorld L ri uuid w) as [->|[_ ->]]; [done|].
  destruct (getTlsClient_cases L ri (resolvedSessionId ri uuid) w)
    as [(c & _ & _ & ->)|[(l & st & url & e & _ & _ & ->)
       |[(l & st & w' & _ & _ & -> & Hcl & Hh & _)
       |[(custom & e & _ & _ & _ & ->)
       |(c & err & w' & Hab & _ & -> & Hcl & _ & Hcase)]]]]; simpl finalWorld;
    try done.
  - split.
    + intros s l' Hs. rewrite Hh, length_insert. apply (Hwf s). by rewrite <- Hcl.
    + intros s1 s2 l' H1 H2. rewrite Hcl in H1, H2. by eapply Hdist.
  - destruct Hcase as [(_ & -> & Hh)|(_ & -> & st & Hh)].
    + split.
      * intros s l' Hs. rewrite Hcl in Hs. rewrite Hh.
        destruct (decide (s = resolvedSessionId ri uuid)) as [->|Hne].
        -- by rewrite lookup_insert_eq in Hs.
        -- rewrite lookup_insert_ne in Hs; [|done]. by eapply Hwf.
      * intros s1 s2 l' H1 H2. rewrite Hcl in H1, H2.
        destruct (decide (s1 = resolvedSessionId ri uuid)) as [->|Hne1];
          [by rewrite lookup_insert_eq in H1|].
        destruct (decide (s2 = resolvedSessionId ri uuid)) as [->|Hne2];
          [by rewrite lookup_insert_eq in H2|].
        rewrite lookup_insert_ne in H1; [|done].
        rewrite lookup_insert_ne in H2; [|done]. by eapply Hdist.
    + split.
      * intros s l' Hs. rewrite Hcl in Hs. rewrite Hh, length_app. simpl.
        destruct (decide (s = resolvedSessionId ri uuid)) as [->|Hne].
        -- rewrite lookup_insert_eq in Hs. injection Hs as <-. lia.
        -- rewrite lookup_insert_ne in Hs; [|done].
           pose proof (Hwf s l' Hs). lia.
      * intros s1 s2 l' H1 H2. rewrite Hcl in H1, H2.
        destruct (decide (s1 = resolvedSessionId ri uuid)) as [->|Hne1];
          destruct (decide (s2 = resolvedSessionId ri uuid)) as [->|Hne2];
          [done| | |].
        -- rewrite lookup_insert_eq in H1. injection H1 as <-.
           rewrite lookup_insert_ne in H2; [|done].
           pose proof (Hwf s2 _ H2). lia.
        -- rewrite lookup_insert_eq in H2. injection H2 as <-.
           rewrite lookup_insert_ne in H1; [|done].
           pose proof (Hwf s1 _ H1). lia.
        -- rewrite lookup_insert_ne in H1; [|done].
           rewrite lookup_insert_ne in H2; [|done]. by eapply Hdist.
Qed.

(** X13: the registry invariant.  When every handle in the registry
    that is not nil points to a client object and no two session ids
    share a client object, the same holds after any sequence of calls;
    a client constructed for one session id is never handed to
    another. *)
Theorem X13_registry_invariant calls w :
  wellFormed w → distinctClients w →
  wellFormed (runCalls L calls w) ∧ distinctClients (runCalls L calls w).
Proof.
  unfold runCalls. revert w.
  induction calls as [|[ri uuid] calls IH]; intros w Hwf Hdist; simpl; [done|].
  destruct (invariant_step ri uuid w Hwf Hdist) as [Hwf' Hdist'].
  by apply IH.
Qed.
End RegistryInvariant.

(** ** Reuse of a session's client across calls *)

Section ReuseAcrossCalls.
Context (L : Library).

Lemma registry_entry_kept ri uuid w sessionId c :
  clients w !! sessionId = Some c →
  clients (finalWorld (GetTlsClientFromInput L ri uuid w)) !! sessionId = Some c.
Proof.
  intros Hs.
  destruct (GetTlsClientFromInput_finalWorld L ri uuid w) as [->|[_ ->]]; [done|].
  destruct (getTlsClient_cases L ri (resolvedSessionId ri uuid) w)
    as [(c0 & _ & _ & ->)|[(l & st & url & e & _ & _ & ->)
       |[(l & st & w' & _ & _ & -> & Hcl & _)
       |[(custom & e & _ & _ & _ & ->)
       |(c0 & err & w' & Hab & _ & -> & Hcl & _)]]]]; simpl;
    rewrite ?Hcl; try done.
  rewrite lookup_insert_ne; [done|]. intros <-. congruence.
Qed.

Lemma liveSession_step ri uuid w sid l st :
  liveSession w sid l st →
  ∃ st', liveSession (finalWorld (GetTlsClientFromInput L ri uuid w)) sid l st'.
Proof.
  intros [Hreg Hl].
  destruct (GetTlsClientFromInput_profiles L ri uuid w l st Hl) as (st' & Hl' & _).
  exists st'. split; [by apply registry_entry_kept|done].
Qed.

Lemma liveSession_runCalls calls w sid l st :
  liveSession w sid l st →
  ∃ st', liveSession (runCalls L calls w) sid l st'.
Proof.
  unfold runCalls. revert w st.
  induction calls as [|[ri uuid] calls IH]; intros w st Hlive; simpl.
  - by exists st.
  - destruct (liveSession_step ri uuid w sid l st Hlive) as (st' & Hlive').
    by eapply IH.
Qed.

(** C3: take a call with a non-empty session id that returns a client
    handle, that is, returns without error, and any later call with
    the same session id and an input that passes validation, with any
    calls, for any sessions, made in between.  The handle of the first
    call is not nil and is the registry's entry for the session id when
    the later call starts and when it ends; the later call returns, it
    constructs no client, and when it returns a handle, that is,
    returns without error, the handle is the identical object the
    first call returned.  This holds whether or not the identifier and
    custom fields of the two inputs agree. *)
Theorem C3_reuse_invariant ri1 ri2 uuid1 uuid2 sid between w c1 s1 w1 :
  SessionId ri1 = Some sid → SessionId ri2 = Some sid → sid ≠ "" →
  passesValidation ri1 → passesValidation ri2 →
  GetTlsClientFromInput L ri1 uuid1 w = Returns (c1, s1, None) w1 →
  c1 ≠ nilClient
  ∧ clients (runCalls L between w1) !! sid = Some c1
  ∧ (∃ c2 e2 w2,
       GetTlsClientFromInput L ri2 uuid2 (runCalls L between w1)
         = Returns (c2, sid, e2) w2
       ∧ constructions w2 = constructions (runCalls L between w1)
       ∧ clients w2 !! sid = Some c1
       ∧ (e2 = None → c2 = c1))
  ∧ (∀ c2 s2 w2,
       GetTlsClientFromInput L ri2 uuid2 (runCalls L between w1)
         = Returns (c2, s2, None) w2 →
       c2 = c1 ∧ constructions w2 = constructions (runCalls L between w1)).
Proof.
  intros Hs1 Hs2 Hne Hv1 Hv2 Hrun1.
  pose proof (resolvedSessionId_supplied ri1 uuid1 sid Hs1 Hne) as Hr1.
  pose proof (resolvedSessionId_supplied ri2 uuid2 sid Hs2 Hne) as Hr2.
  pose proof (GetTlsClientFromInput_sessionId L ri1 uuid1 w c1 s1 None w1 Hrun1)
    as Hs. rewrite Hr1 in Hs. subst s1.
  destruct (GetTlsClientFromInput_outcome L ri1 uuid1 w c1 sid None w1 Hrun1)
    as [_ Hok].
  destruct (Hok eq_refl) as (_ & l & st & -> & Hlive & _).
  destruct (liveSession_runCalls between w1 sid l st Hlive) as (st' & Hlive').
  destruct (GetTlsClientFromInput_live L ri2 uuid2 sid l st'
              (runCalls L between w1) Hv2 Hr2 Hlive')
    as (c2 & e2 & w2 & st'' & evs & Hrun2 & [Hreg2 _] & Hcl & _ & Ht & Hevs & Hcase).
  assert (constructions w2 = constructions (runCalls L between w1)) as Hcount.
  { eapply constructions_extends; [exact Ht|].
    by apply no_resolution_no_construction. }
  assert (e2 = None → c2 = clientAt l) as Hsame.
  { intros ->.
    destruct (proxyChangeRejected L st' (ProxyUrl ri2)) as [[url err]|].
    - by destruct Hcase as (_ & ? & _).
    - by destruct Hcase as (-> & _). }
  split; [done|]. split; [by destruct Hlive'|]. split.
  - by exists c2, e2, w2.
  - intros c2' s2' w2' Hrun2'. rewrite Hrun2 in Hrun2'.
    injection Hrun2' as <- <- He2 <-. split; [by apply Hsame|done].
Qed.
End ReuseAcrossCalls.

(** ** Further properties: nil entries *)

Section NilEntries.
Context (L : Library).

(** X14: once the registry holds a nil handle under a session id,
    every call for that id with an input that passes validation
    panics, whatever proxy and flags it carries, and leaves the nil
    handle in place: the session id stays unusable. *)
Theorem X14_nil_entry_panics ri uuid w :
  passesValidation ri →
  clients w !! resolvedSessionId ri uuid = Some nilClient →
  GetTlsClientFromInput L ri uuid w
    = Panics (logEvent (EvRegistryLookup (resolvedSessionId ri uuid)) w)
  ∧ clients (finalWorld (GetTlsClientFromInput L ri uuid w))
      !! resolvedSessionId ri uuid = Some nilClient.
Proof.
  intros Hv Hc. rewrite GetTlsClientFromInput_valid; [|done].
  erewrite bind_panics; [|eapply getTlsClient_dead; [done|by left]].
  by split.
Qed.
End NilEntries.

(** ** The further properties on concrete runs *)

Section MoreRuns.
Import Demo.

Lemma X1_witness :
  ∃ req,
    BuildRequest lib post emptyWorld
      = Returns (Some req, None)
                (logEvent (EvNewRequest "POST" "https://example.com" (Some "{}"))
                   emptyWorld)
    ∧ http.ReqHeader req !! "Header-Order:" = Some ["Content-Type"]
    ∧ http.ReqHeader req !! "Content-Type" = Some ["application/json"].
Proof.
  destruct (X1_BuildRequest_headers lib post emptyWorld)
    as (req & Hrun & Horder & Hkeys & _).
  - discriminate.
  - discriminate.
  - right; right. by eexists.
  - reflexivity.
  - exists req. split; [exact Hrun|]. split; [exact Horder|].
    apply (Hkeys "Content-Type"). discriminate.
Defined.

Lemma X2_witness :
  BuildRequest lib badMethod emptyWorld
  = Returns (None, Some (NewTLSClientError
                           (Wrapf "failed to create request object"
                              (External "invalid method"))))
            (logEvent (EvNewRequest "GE T" "https://example.com" None) emptyWorld).
Proof.
  apply (X2_BuildRequest_NewRequest_error lib badMethod (External "invalid method")
           emptyWorld).
  - discriminate.
  - discriminate.
  - by left.
  - reflexivity.
Defined.

Lemma X5_witness :
  ∃ h2SettingsOrder pseudoHeaderOrder priorityFrames,
    getCustomTlsClientProfile lib custom =
      ({| tls.Client := "Custom"; tls.Version := "1"; tls.Seed := None;
          tls.Factory := Some (tls.specFactoryOf "771,4865-4866,0-23,29-23,0") |},
       {[ 1%Z := 65536%Z ]}, h2SettingsOrder, pseudoHeaderOrder,
       15663105%Z, priorityFrames, None).
Proof. apply (X5_custom_profile_settings lib custom). reflexivity. Defined.

Lemma customised_passesValidation : passesValidation customised.
Proof. split; intros [H1 H2]; simpl in *; congruence. Qed.

Lemma badCustom_passesValidation sessionId : passesValidation (badCustom sessionId).
Proof. split; intros [H1 H2]; simpl in *; congruence. Qed.

Lemma X8_witness :
  ∃ profile c e w',
    GetTlsClientFromInput lib customised "u1" oneClient = Returns (c, "c", e) w'
    ∧ In (EvNewHttpClient [tls_client.WithTimeout 5;
                           tls_client.WithClientProfile profile;
                           tls_client.WithNotFollowRedirects;
                           tls_client.WithInsecureSkipVerify;
                           tls_client.WithProxyUrl "http://proxy:8080"])
         (trace w')
    ∧ tls_client.settingsOrder profile = [2; 4; 1]%Z.
Proof.
  destruct (X8_new_client_configuration lib customised "u1" oneClient)
    as (profile & c & e & w' & Hrun & _ & _ & Ht & _ & Hcustom).
  - apply customised_passesValidation.
  - reflexivity.
  - reflexivity.
  - exists profile, c, e, w'. split; [exact Hrun|]. split.
    + rewrite Ht. simpl. right; right. left. reflexivity.
    + by destruct (Hcustom custom eq_refl) as (_ & _ & ? & _).
Defined.

Lemma C3_witness :
  clientAt 0 ≠ nilClient
  ∧ clients (runCalls lib [(named (Some "t") None true, "u3");
                           (named (Some "s") (Some "://bad") true, "u4")]
               (finalWorld (GetTlsClientFromInput lib (named (Some "s") None true)
                              "u1" emptyWorld))) !! "s" = Some (clientAt 0)
  ∧ ∃ c2 e2 w2,
      GetTlsClientFromInput lib (named (Some "s") (Some "http://proxy:8080") false) "u2"
        (runCalls lib [(named (Some "t") None true, "u3");
                       (named (Some "s") (Some "://bad") true, "u4")]
           (finalWorld (GetTlsClientFromInput lib (named (Some "s") None true)
                          "u1" emptyWorld)))
        = Returns (c2, "s", e2) w2
      ∧ (e2 = None → c2 = clientAt 0).
Proof.
  destruct (C3_reuse_invariant lib (named (Some "s") None true)
              (named (Some "s") (Some "http://proxy:8080") false)
              "u1" "u2" "s"
              [(named (Some "t") None true, "u3");
               (named (Some "s") (Some "://bad") true, "u4")]
              emptyWorld (clientAt 0) "s"
              (finalWorld (GetTlsClientFromInput lib (named (Some "s") None true)
                             "u1" emptyWorld)))
    as (Hnil & Hreg & (c2 & e2 & w2 & Hrun & _ & _ & Hsame) & _).
  - reflexivity.
  - reflexivity.
  - discriminate.
  - apply named_passesValidation.
  - apply named_passesValidation.
  - vm_compute. reflexivity.
  - split; [exact Hnil|]. split; [exact Hreg|].
    exists c2, e2, w2. split; [exact Hrun|exact Hsame].
Defined.

Lemma X9_witness :
  ∃ w',
    GetTlsClientFromInput lib (badCustom (Some "b")) "u1" oneClient
      = Returns (nilClient, "b",
                 Some (NewTLSClientError
                         (Wrapf "failed to build client out of request input"
                            (Wrapf "can not build http client out of custom tls client information"
                               (External "invalid ja3"))))) w'
    ∧ clients w' = clients oneClient ∧ heap w' = heap oneClient
    ∧ constructions w' = constructions oneClient.
Proof.
  apply (X9_ja3_error_leaves_registry lib (badCustom (Some "b")) "u1" unparsable
           (External "invalid ja3") oneClient).
  - apply badCustom_passesValidation.
  - reflexivity.
  - reflexivity.
  - reflexivity.
Defined.

Lemma X10_witness :
  (is_Some (@None TLSClientError) → clientAt 0 = nilClient)
  ∧ (@None TLSClientError = None →
     ∃ l st,
       clientAt 0 = clientAt l
       ∧ liveSession (finalWorld (GetTlsClientFromInput lib
                                    (named (Some "s") (Some "http://proxy:8080") false)
                                    "u1" oneClient)) "s" l st
       ∧ tls_client.followRedirects st = false
       ∧ (∀ proxy, Some "http://proxy:8080" = Some proxy → proxy ≠ "" →
                   tls_client.proxyUrl st = proxy)).
Proof.
  apply (X10_handle_or_error lib (named (Some "s") (Some "http://proxy:8080") false)
           "u1" oneClient (clientAt 0) "s" None).
  vm_compute. reflexivity.
Defined.

Lemma X11_witness :
  GetTlsClientFromInput lib (named (Some "s") None false) "u1" oneClient
  = GetTlsClientFromInput lib
      {| SessionId := Some "s"; TLSClientIdentifier := "";
         CustomTlsClient_ := Some custom; ProxyUrl := None;
         FollowRedirects := false; TimeoutSeconds := 99%Z;
         InsecureSkipVerify := true;
         RequestMethod := "GET"; RequestUrl := "https://example.com";
         RequestBody := None; Headers := ∅; HeaderOrder := [] |}
      "u2" oneClient.
Proof.
  apply X11_existing_session_ignores_rest.
  - apply named_passesValidation.
  - split; intros [H1 H2]; simpl in *; congruence.
  - reflexivity.
  - by eexists.
  - reflexivity.
  - reflexivity.
Defined.

Lemma X12_witness :
  ∃ w2,
    GetTlsClientFromInput lib (named (Some "s") (Some "http://proxy:8080") false) "u2"
      (finalWorld (GetTlsClientFromInput lib
                     (named (Some "s") (Some "http://proxy:8080") false)
                     "u1" oneClient))
      = Returns (clientAt 0, "s", None) w2
    ∧ heap w2 = heap (finalWorld (GetTlsClientFromInput lib
                                    (named (Some "s") (Some "http://proxy:8080") false)
                                    "u1" oneClient)).
Proof.
  destruct (X12_repeated_call_is_idempotent lib
              (named (Some "s") (Some "http://proxy:8080") false)
              "u1" "u2" "s" oneClient (clientAt 0)
              (finalWorld (GetTlsClientFromInput lib
                             (named (Some "s") (Some "http://proxy:8080") false)
                             "u1" oneClient)))
    as (w2 & Hrun & _ & Hh & _).
  - reflexivity.
  - discriminate.
  - discriminate.
  - vm_compute. reflexivity.
  - exists w2. split; [exact Hrun|exact Hh].
Defined.

Lemma X13_witness :
  wellFormed (runCalls lib [(named (Some "s") None true, "u1");
                            (named None (Some "://bad") true, "u2");
                            (named (Some "t") None false, "u3")] emptyWorld)
  ∧ distinctClients (runCalls lib [(named (Some "s") None true, "u1");
                                   (named None (Some "://bad") true, "u2");
                                   (named (Some "t") None false, "u3")] emptyWorld).
Proof.
  apply X13_registry_invariant.
  - intros s l Hs. simpl in Hs. by rewrite lookup_empty in Hs.
  - intros s1 s2 l Hs. simpl in Hs. by rewrite lookup_empty in Hs.
Defined.
Lemma X14_witness :
  GetTlsClientFromInput lib (named (Some "s") None true) "u1" nilEntry
    = Panics (logEvent (EvRegistryLookup "s") nilEntry)
  ∧ clients (finalWorld (GetTlsClientFromInput lib (named (Some "s") None true)
                           "u1" nilEntry)) !! "s" = Some nilClient.
Proof.
  apply (X14_nil_entry_panics lib (named (Some "s") None true) "u1" nilEntry).
  - apply named_passesValidation.
  - reflexivity.
Defined.
End MoreRuns.
